(** * Attendance and PPE-compliance service (app.py): a shallow embedding

    The Flask handlers of [app.py] are embedded as functions over an explicit
    model of the two external stores (the [workers] and [attendance] tables
    and the [ppe-images] bucket).  Every external call may raise; what a call
    does on a given request is fixed by an environment record, so that each
    handler is a total function from (environment, request, world) to
    (response, world).  A side effect that happened before an exception
    stays in the world.

    Modelling choices:
    - text is [string], a sequence of bytes read as ASCII;
    - integers are unbounded; [int] and [str] keep the interpreter's default
      limit of 4300 digits on conversions between integers and text;
    - the body of a request is a JSON object whose values are strings or
      null ([None]); a missing key and a null value both read as [None]
      with [data.get(k)];
    - a table is the list of its rows in insertion order; the storage layer
      stamps a new attendance row with its clock; the columns of [workers]
      are never null;
    - an upload adds the object to the bucket, a removal drops the objects
      with the given keys;
    - building the [GenerativeModel] object does not raise; only
      [generate_content] does. *)

From Stdlib Require Import ZArith Ascii Lia.
From Stdlib Require Import Numbers.DecimalString Numbers.DecimalZ.
From stdpp Require Import gmap strings list fin_maps sorting.

Local Open Scope Z_scope.

(** ** Exceptions *)

(** The exceptions the handlers can meet; each carries what [str(e)] shows. *)
Inductive exn : Type :=
| AttributeError (msg : string)
| IndexError (msg : string)
| ValueError (msg : string)
| BinasciiError (msg : string)
| ExternalError (msg : string).

Definition exn_str (e : exn) : string :=
  match e with
  | AttributeError m | IndexError m | ValueError m | BinasciiError m
  | ExternalError m => m
  end.

Inductive result (A : Type) : Type :=
| Ok (a : A)
| Raise (e : exn).
Arguments Ok {A} a.
Arguments Raise {A} e.

(** ** The Python string operations the handlers use *)

Module Py.

Definition code (c : ascii) : N := N_of_ascii c.

(** [ch.isspace()] on ASCII: TAB..CR, FS..US and the blank. *)
Definition isspace (c : ascii) : bool :=
  let n := code c in
  (((9 <=? n) && (n <=? 13)) || ((28 <=? n) && (n <=? 32)))%N.

Definition upper_char (c : ascii) : ascii :=
  let n := code c in
  if ((97 <=? n) && (n <=? 122))%N then ascii_of_N (n - 32) else c.

(** [s.upper()] *)
Fixpoint upper (s : string) : string :=
  match s with
  | EmptyString => EmptyString
  | String c r => String (upper_char c) (upper r)
  end.

(** [s.lstrip()] *)
Fixpoint lstrip (s : string) : string :=
  match s with
  | EmptyString => EmptyString
  | String c r => if isspace c then lstrip r else s
  end.

(** [s.rstrip()]: a suffix made of blanks only is dropped. *)
Fixpoint rstrip (s : string) : string :=
  match s with
  | EmptyString => EmptyString
  | String c r =>
      match rstrip r with
      | EmptyString => if isspace c then EmptyString else String c EmptyString
      | r' => String c r'
      end
  end.

(** [s.strip()] *)
Definition strip (s : string) : string := rstrip (lstrip s).

(** [s.startswith(p)] *)
Fixpoint startswith (p s : string) : bool :=
  match p, s with
  | EmptyString, _ => true
  | String a p', String b s' => if Ascii.eqb a b then startswith p' s' else false
  | String _ _, EmptyString => false
  end.

(** [p in s] *)
Fixpoint contains (p s : string) : bool :=
  if startswith p s then true
  else match s with
       | EmptyString => false
       | String _ r => contains p r
       end.

(** [s.replace(old, new)] for a non-empty [old]: occurrences are taken
    from the left and do not overlap.  [skip] counts the characters of an
    occurrence that are still to be dropped. *)
Fixpoint replace_from (old new : string) (skip : nat) (s : string) : string :=
  match s with
  | EmptyString => EmptyString
  | String c r =>
      match skip with
      | S k => replace_from old new k r
      | O =>
          if startswith old s
          then new +:+ replace_from old new (String.length old - 1) r
          else String c (replace_from old new 0 r)
      end
  end.

Definition replace (old new s : string) : string := replace_from old new 0 s.

(** [s.split(sep)] for a one-character separator: the fields between the
    separators, in order; a string without separator is its only field. *)
Fixpoint split (sep : ascii) (s : string) : list string :=
  match s with
  | EmptyString => [EmptyString]
  | String c r =>
      if Ascii.eqb c sep then EmptyString :: split sep r
      else match split sep r with
           | field :: fields => String c field :: fields
           | [] => [String c EmptyString]
           end
  end.

(** The decimal text of an integer. *)
Definition decimal (n : Z) : string := NilZero.string_of_int (Z.to_int n).

(** The interpreter's limit on the digits of an integer in a conversion
    from or to text ([sys.get_int_max_str_digits()]). *)
Definition max_str_digits : Z := 4300.

(** [str(n)] for an integer: [ValueError] when [n] has more digits than the
    limit. *)
Definition str_int (n : Z) : result string :=
  if max_str_digits <? Z.of_nat (String.length (decimal (Z.abs n)))
  then Raise (ValueError
    "Exceeds the limit (4300 digits) for integer string conversion; use sys.set_int_max_str_digits() to increase the limit")
  else Ok (decimal n).

Definition isdigit (c : ascii) : bool :=
  let n := code c in ((48 <=? n) && (n <=? 57))%N.

(** The blanks [int] skips around an ASCII literal: TAB..CR and the blank
    (unlike [str.strip], not FS..US). *)
Definition isspace_c (c : ascii) : bool :=
  let n := code c in (((9 <=? n) && (n <=? 13)) || (n =? 32))%N.

Fixpoint lstrip_c (s : string) : string :=
  match s with
  | EmptyString => EmptyString
  | String c r => if isspace_c c then lstrip_c r else s
  end.

Fixpoint rstrip_c (s : string) : string :=
  match s with
  | EmptyString => EmptyString
  | String c r =>
      match rstrip_c r with
      | EmptyString => if isspace_c c then EmptyString else String c EmptyString
      | r' => String c r'
      end
  end.

(** The digits of an integer literal with its underscores removed; an
    underscore is accepted only between two digits.  [prev] tells whether
    the previous character was a digit. *)
Fixpoint digits_of (prev : bool) (s : string) : option string :=
  match s with
  | EmptyString => if prev then Some EmptyString else None
  | String c r =>
      if isdigit c then String c <$> digits_of true r
      else if Ascii.eqb c "_" then (if prev then digits_of false r else None)
      else None
  end.

(** [int(s)] in base ten on ASCII text: surrounding blanks and one sign are
    accepted, and at most [max_str_digits] digits; [None] stands for
    [ValueError]. *)
Definition int (s : string) : option Z :=
  let t := rstrip_c (lstrip_c s) in
  let '(neg, body) :=
    match t with
    | String "-" r => (true, r)
    | String "+" r => (false, r)
    | _ => (false, t)
    end in
  ds ← digits_of false body;
  if max_str_digits <? Z.of_nat (String.length ds) then None
  else
    d ← NilEmpty.uint_of_string ds;
    Some (if neg : bool then - Z.of_uint d else Z.of_uint d).

End Py.

(** ** [base64.b64decode] (standard library, default [validate=False]) *)

Module Base64.

Definition bytes := list Byte.byte.

Definition byte_of_Z (z : Z) : Byte.byte :=
  byte_of_ascii (ascii_of_N (Z.to_N (Z.land z 255))).

(** The decoding table: the value of a character of the alphabet, [None]
    for every other character. *)
Definition table_a2b (c : ascii) : option Z :=
  let n := Z.of_N (N_of_ascii c) in
  if (65 <=? n) && (n <=? 90) then Some (n - 65)
  else if (97 <=? n) && (n <=? 122) then Some (n - 97 + 26)
  else if (48 <=? n) && (n <=? 57) then Some (n - 48 + 52)
  else if n =? 43 then Some 62
  else if n =? 47 then Some 63
  else None.

(** The loop of [binascii.a2b_base64] without strict mode: characters
    outside the alphabet are skipped, a pad sequence that completes a quad
    ends the input, and a quad left unfinished at the end is an error.
    [out] holds the decoded bytes, last one first. *)
Fixpoint a2b_loop (s : string) (quad_pos : nat) (leftchar : Z) (pads : nat)
    (out : list Z) : result (list Z) :=
  match s with
  | EmptyString =>
      match quad_pos with
      | O => Ok (rev out)
      | 1%nat =>
          Raise (BinasciiError
            ("Invalid base64-encoded string: number of data characters ("
             +:+ Py.decimal (Z.of_nat (length out) / 3 * 4 + 1)
             +:+ ") cannot be 1 more than a multiple of 4"))
      | _ => Raise (BinasciiError "Incorrect padding")
      end
  | String c r =>
      if Ascii.eqb c "="
      then
        if (2 <=? quad_pos)%nat && (4 <=? quad_pos + S pads)%nat
        then Ok (rev out)
        else a2b_loop r quad_pos leftchar
               (if (2 <=? quad_pos)%nat then S pads else pads) out
      else
        match table_a2b c with
        | None => a2b_loop r quad_pos leftchar pads out
        | Some this_ch =>
            match quad_pos with
            | O => a2b_loop r 1 this_ch 0 out
            | 1%nat =>
                a2b_loop r 2 (Z.land this_ch 15) 0
                  (Z.land (Z.lor (Z.shiftl leftchar 2) (Z.shiftr this_ch 4)) 255 :: out)
            | 2%nat =>
                a2b_loop r 3 (Z.land this_ch 3) 0
                  (Z.land (Z.lor (Z.shiftl leftchar 4) (Z.shiftr this_ch 2)) 255 :: out)
            | _ =>
                a2b_loop r 0 0 0
                  (Z.land (Z.lor (Z.shiftl leftchar 6) this_ch) 255 :: out)
            end
        end
  end.

Fixpoint is_ascii (s : string) : bool :=
  match s with
  | EmptyString => true
  | String c r => (N_of_ascii c <? 128)%N && is_ascii r
  end.

(** [base64.b64decode(s)] for a [str] argument. *)
Definition b64decode (s : string) : result bytes :=
  if is_ascii s then
    match a2b_loop s 0 0 0 [] with
    | Ok out => Ok (byte_of_Z <$> out)
    | Raise e => Raise e
    end
  else Raise (ValueError "string argument should contain only ASCII characters").

End Base64.

(** ** The external stores *)

(** A row of the [workers] table. *)
Record Worker : Type := mkWorker {
  w_worker_id : string;
  w_name : string
}.

(** A row of the [attendance] table.  [None] is SQL NULL / Python [None];
    [created_at] is filled in by the storage layer. *)
Record AttendanceRecord : Type := mkAttendance {
  worker_id : option string;
  attendance_status : option string;
  ppe_status : string;
  ppe_missing_items : string;
  ppe_image_url : option string;
  date : option string;
  created_at : nat
}.

(** The state of the services behind the [supabase] client: both tables, the
    [ppe-images] bucket (object key and content) and the clock the storage
    layer stamps new rows with. *)
Record World : Type := mkWorld {
  workers : list Worker;
  attendance : list AttendanceRecord;
  bucket : list (string * Base64.bytes);
  clock : nat
}.

(** What [model.generate_content] does: it raises, or answers with a
    response whose [text] may be [None]. *)
Inductive GeminiCall : Type :=
| GeminiRaises
| GeminiText (text : option string).

(** Everything a request takes from outside the world: the fresh
    identifier, the server's date, the classifier, and for every kind of
    external call the message of the exception it raises, if it does. *)
Record Env : Type := mkEnv {
  uuid4 : string;
  today : string;
  generate_content : string -> GeminiCall;
  upload_fault : option string;
  remove_fault : option string;
  attendance_insert_fault : option string;
  attendance_select_fault : option string;
  workers_select_fault : option string;
  workers_insert_fault : option string
}.

(** ** Computations that read and write the world and may raise *)

Definition M (A : Type) : Type := World -> result A * World.

Definition ret {A} (a : A) : M A := fun w => (Ok a, w).
Definition raise {A} (e : exn) : M A := fun w => (Raise e, w).
Definition bind {A B} (c : M A) (k : A -> M B) : M B :=
  fun w => match c w with
           | (Ok a, w') => k a w'
           | (Raise e, w') => (Raise e, w')
           end.
Definition lift {A} (r : result A) : M A := fun w => (r, w).

Notation "x <~ c ;; k" := (bind c (fun x => k))
  (at level 100, c at next level, right associativity).
Notation "c ;;; k" := (bind c (fun _ => k))
  (at level 100, right associativity).

(** [try: c except Exception as e: h e] *)
Definition try_except {A} (c : M A) (h : exn -> A) : World -> A * World :=
  fun w => match c w with
           | (Ok a, w') => (a, w')
           | (Raise e, w') => (h e, w')
           end.

(** ** JSON values and responses *)

Inductive jval : Type :=
| JNull
| JStr (s : string)
| JNum (n : Z).

(** [jsonify(body), code] *)
Record Response : Type := mkResponse {
  body : list (string * jval);
  http : nat
}.

(** The JSON object of a request; its values are strings or null. *)
Abbreviation Request := (gmap string (option string)).

(** [data.get(k)] *)
Definition get (data : Request) (k : string) : option string :=
  match data !! k with Some v => v | None => None end.

(** [data.get(k, d)] *)
Definition get_default (data : Request) (k : string) (d : string) : option string :=
  match data !! k with Some v => v | None => Some d end.

(** [str(v)] and [f"{v}"] for a string or [None]. *)
Definition str (v : option string) : string :=
  match v with Some s => s | None => "None" end.

(** [not v] *)
Definition falsy (v : option string) : bool :=
  match v with
  | None => true
  | Some s => bool_decide (s = "")
  end.

(** ** The calls on the [supabase] client *)

Section Client.

Context (env : Env).

Definition external {A} (fault : option string) (run : World -> A * World) : M A :=
  fun w => match fault with
           | Some msg => (Raise (ExternalError msg), w)
           | None => let '(a, w') := run w in (Ok a, w')
           end.

(** [supabase.storage.from_("ppe-images").upload(path=.., file=..)] *)
Definition storage_upload (path : string) (file : Base64.bytes) : M unit :=
  external (upload_fault env) (fun w =>
    (tt, mkWorld (workers w) (attendance w) (bucket w ++ [(path, file)]) (clock w))).

(** [supabase.storage.from_("ppe-images").remove(paths)] *)
Definition storage_remove (paths : list string) : M unit :=
  external (remove_fault env) (fun w =>
    (tt, mkWorld (workers w) (attendance w)
           (filter (fun o => o.1 ∉ paths) (bucket w)) (clock w))).

(** [supabase.table("attendance").insert(row).execute()]: the row is
    appended and stamped with the clock, which advances. *)
Definition attendance_insert (wid status : option string) (ppe missing : string)
    (url d : option string) : M unit :=
  external (attendance_insert_fault env) (fun w =>
    (tt, mkWorld (workers w)
           (attendance w ++ [mkAttendance wid status ppe missing url d (clock w)])
           (bucket w) (S (clock w)))).

(** [.order("created_at")]: oldest row first; rows with the same stamp
    keep the order of the table. *)
Fixpoint insert_by_created_at (r : AttendanceRecord) (l : list AttendanceRecord)
    : list AttendanceRecord :=
  match l with
  | [] => [r]
  | x :: l' =>
      if (created_at r <=? created_at x)%nat then r :: l
      else x :: insert_by_created_at r l'
  end.

Definition order_by_created_at (l : list AttendanceRecord) : list AttendanceRecord :=
  foldr insert_by_created_at [] l.

(** [supabase.table("attendance").select(..).eq("date", d).order("created_at").execute().data] *)
Definition attendance_select_date (d : string) : M (list AttendanceRecord) :=
  external (attendance_select_fault env) (fun w =>
    (order_by_created_at (filter (fun r => date r = Some d) (attendance w)), w)).

(** [supabase.table("workers").select("name").eq("worker_id", v).execute().data];
    the filter compares the column with the text of [v]. *)
Definition workers_select_name (v : option string) : M (list string) :=
  external (workers_select_fault env) (fun w =>
    (w_name <$> filter (fun x => w_worker_id x = str v) (workers w), w)).

(** [supabase.table("workers").select("worker_id").execute().data] *)
Definition workers_select_worker_id : M (list string) :=
  external (workers_select_fault env) (fun w => (w_worker_id <$> workers w, w)).

(** [supabase.table("workers").select("id", count="exact").execute().count] *)
Definition workers_count : M Z :=
  external (workers_select_fault env) (fun w => (Z.of_nat (length (workers w)), w)).

(** [supabase.table("workers").insert({"worker_id": .., "name": ..}).execute()] *)
Definition workers_insert (wid name : string) : M unit :=
  external (workers_insert_fault env) (fun w =>
    (tt, mkWorld (workers w ++ [mkWorker wid name]) (attendance w) (bucket w) (clock w))).

End Client.

(** ** The handlers of app.py *)

Section Handlers.

Context (env : Env).

(** [jsonify({"status": "ERROR", "message": str(e)}), 500] *)
Definition error_response (e : exn) : Response :=
  mkResponse [("status", JStr "ERROR"); ("message", JStr (exn_str e))] 500.

(** [jsonify({"error": str(e)}), 500] *)
Definition error_only_response (e : exn) : Response :=
  mkResponse [("error", JStr (exn_str e))] 500.

(** [POST /precheck] *)
Definition precheck (data : Request) : World -> Response * World :=
  let worker_id := get data "worker_id" in
  if falsy worker_id then
    fun w => (mkResponse [("status", JStr "ERROR");
                          ("message", JStr "Worker ID required")] 400, w)
  else
    try_except
      (worker <~ workers_select_name env worker_id ;;
       match worker with
       | [] => ret (mkResponse [("status", JStr "NOT_FOUND");
                                ("message", JStr "ID not registered")] 404)
       | name :: _ => ret (mkResponse [("status", JStr "SUCCESS");
                                       ("worker_name", JStr name)] 200)
       end)
      error_response.

Definition verify_ppe_with_gemini (image_base64 : string) : string :=
  match generate_content env image_base64 with
  | GeminiText text => Py.upper (Py.strip (default "" text))
  | GeminiRaises => "ERROR_GEMINI"
  end.

(** [image_data.split(",")[1]] *)
Definition split_comma_1 (image_data : option string) : result string :=
  match image_data with
  | None => Raise (AttributeError "'NoneType' object has no attribute 'split'")
  | Some s =>
      match Py.split "," s !! 1%nat with
      | Some raw_b64 => Ok raw_b64
      | None => Raise (IndexError "list index out of range")
      end
  end.

(** [POST /verify] *)
Definition verify (data : Request) : World -> Response * World :=
  let worker_id := get data "worker_id" in
  let image_data := get data "image" in
  try_except
    (raw_b64 <~ lift (split_comma_1 image_data) ;;
     image_bytes <~ lift (Base64.b64decode raw_b64) ;;
     let file_name := "auto_" +:+ str worker_id +:+ "_" +:+ uuid4 env +:+ ".jpg" in
     storage_upload env file_name image_bytes ;;;
     let ai_result := verify_ppe_with_gemini raw_b64 in
     storage_remove env [file_name] ;;;
     if Py.contains "NO_WORKER" ai_result then
       ret (mkResponse [("status", JStr "RETRY");
                        ("message", JStr "Worker not detected")] 200)
     else
       let status := if Py.contains "PPE_OK" ai_result then "PRESENT" else "ABSENT" in
       let missing :=
         if bool_decide (status = "ABSENT")
         then Py.strip (Py.replace "PPE_MISSING:" "" ai_result) else "" in
       attendance_insert env worker_id (Some status)
         (if bool_decide (status = "PRESENT") then "PASSED" else "FAILED")
         missing None (Some (today env)) ;;;
       worker <~ workers_select_name env worker_id ;;
       ret (mkResponse
              [("status", JStr status);
               ("worker_name", JStr match worker with name :: _ => name | [] => "Worker" end);
               ("missing", JStr missing)] 200))
    error_response.

(** [POST /manual-upload] *)
Definition manual_upload (data : Request) : World -> Response * World :=
  let worker_id := get data "worker_id" in
  let image_data := get data "image" in
  try_except
    (raw_b64 <~ lift (split_comma_1 image_data) ;;
     image_bytes <~ lift (Base64.b64decode raw_b64) ;;
     let file_name := "manual_" +:+ str worker_id +:+ "_" +:+ uuid4 env +:+ ".jpg" in
     storage_upload env file_name image_bytes ;;;
     attendance_insert env worker_id (Some "PRESENT") "MANUAL_VERIFIED"
       "Manual Override Confirmed" None (Some (today env)) ;;;
     storage_remove env [file_name] ;;;
     ret (mkResponse [("status", JStr "SUCCESS")] 200))
    error_response.

(** [POST /api/manual-mark] *)
Definition manual_mark (data : Request) : World -> Response * World :=
  let worker_id := get data "worker_id" in
  let status := get_default data "status" "PRESENT" in
  let date_str := get_default data "date" (today env) in
  try_except
    (attendance_insert env worker_id status "ADMIN_OVERRIDE"
       ("Marked " +:+ str status +:+ " by Admin") None date_str ;;;
     ret (mkResponse [("status", JStr "SUCCESS")] 200))
    error_only_response.

(** The loop of [get_stats]: [latest_status_map[l['worker_id']] = l['attendance_status']]
    for the rows in the order they were fetched. *)
Definition latest_status_map (logs : list AttendanceRecord)
    : gmap (option string) (option string) :=
  foldl (fun m l => <[worker_id l := attendance_status l]> m) ∅ logs.

(** [sum(1 for status in m.values() if status == v)] *)
Definition count_status (v : string) (m : gmap (option string) (option string)) : Z :=
  Z.of_nat (length (filter (fun kv => kv.2 = Some v) (map_to_list m))).

(** [GET /api/stats]; [args] are the query parameters. *)
Definition get_stats (args : gmap string string) : World -> Response * World :=
  let target_date := default (today env) (args !! "date") in
  try_except
    (logs <~ attendance_select_date env target_date ;;
     let m := latest_status_map logs in
     let present_count := count_status "PRESENT" m in
     let absent_count := count_status "ABSENT" m in
     total_workers_in_db <~ workers_count env ;;
     ret (mkResponse [("present", JNum present_count);
                      ("absent", JNum absent_count);
                      ("total_workers", JNum total_workers_in_db);
                      ("date", JStr target_date)] 200))
    error_only_response.

(** The [ids] list of [add_worker]: the ids that [int] accepts. *)
Definition parsed_ids (data : list string) : list Z := omap Py.int data.

(** [max(ids)] for a non-empty list. *)
Definition max_list (ids : list Z) : Z :=
  match ids with
  | [] => 0
  | x :: r => foldl Z.max x r
  end.

(** [POST /api/workers] *)
Definition add_worker (data : Request) : World -> Response * World :=
  let name := get data "name" in
  if falsy name then
    fun w => (mkResponse [("error", JStr "Name is required")] 400, w)
  else
    try_except
      (res <~ workers_select_worker_id env ;;
       let next_id :=
         match res with
         | [] => 1001
         | _ => match parsed_ids res with
                | [] => 1001
                | ids => max_list ids + 1
                end
         end in
       new_id <~ lift (Py.str_int next_id) ;;
       workers_insert env new_id (str name) ;;;
       returned_id <~ lift (Py.str_int next_id) ;;
       ret (mkResponse [("status", JStr "ok");
                        ("worker_id", JStr returned_id)] 200))
      error_only_response.

End Handlers.

(** ** The listing and removal handlers *)

(** The messages of the exceptions the two [delete] calls of
    [delete_worker] raise, if they do. *)
Record DeleteFaults : Type := mkDeleteFaults {
  attendance_delete_fault : option string;
  workers_delete_fault : option string
}.

(** The columns [get_logs] selects from a row of [attendance]. *)
Record LogRow : Type := mkLogRow {
  log_worker_id : option string;
  log_attendance_status : option string;
  log_ppe_status : string;
  log_ppe_missing_items : string;
  log_created_at : nat;
  log_date : option string
}.

(** What a listing handler returns: [jsonify(rows)] with code 200, or an
    error object with its code. *)
Inductive Listing (A : Type) : Type :=
| Listed (rows : list A)
| NotListed (r : Response).
Arguments Listed {A} rows.
Arguments NotListed {A} r.

Section Admin.

Context (env : Env) (faults : DeleteFaults).

(** [supabase.table("attendance").delete().eq("worker_id", v).execute()] *)
Definition attendance_delete (v : string) : M unit :=
  external (attendance_delete_fault faults) (fun w =>
    (tt, mkWorld (workers w)
           (filter (fun r => worker_id r <> Some v) (attendance w))
           (bucket w) (clock w))).

(** [supabase.table("workers").delete().eq("worker_id", v).execute()] *)
Definition workers_delete (v : string) : M unit :=
  external (workers_delete_fault faults) (fun w =>
    (tt, mkWorld (filter (fun x => w_worker_id x <> v) (workers w))
           (attendance w) (bucket w) (clock w))).

(** [.order("created_at", desc=True)]: newest row first; rows with the same
    stamp keep the order of the table. *)
Fixpoint insert_by_created_at_desc (r : AttendanceRecord) (l : list AttendanceRecord)
    : list AttendanceRecord :=
  match l with
  | [] => [r]
  | x :: l' =>
      if (created_at x <=? created_at r)%nat then r :: l
      else x :: insert_by_created_at_desc r l'
  end.

Definition order_by_created_at_desc (l : list AttendanceRecord) : list AttendanceRecord :=
  foldr insert_by_created_at_desc [] l.

Definition log_row (r : AttendanceRecord) : LogRow :=
  mkLogRow (worker_id r) (attendance_status r) (ppe_status r) (ppe_missing_items r)
    (created_at r) (date r).

(** The query of [get_logs]: the [eq("date", ..)] filter is added only for
    a date that is given and not empty. *)
Definition attendance_select_logs (target_date : option string) : M (list LogRow) :=
  external (attendance_select_fault env) (fun w =>
    (log_row <$>
       order_by_created_at_desc
         (if falsy target_date then attendance w
          else filter (fun r => date r = target_date) (attendance w)), w)).

(** [GET /api/logs]; [args] are the query parameters. *)
Definition get_logs (args : gmap string string) : World -> Listing LogRow * World :=
  let target_date := args !! "date" in
  try_except
    (logs <~ attendance_select_logs target_date ;;
     ret (Listed logs))
    (fun e => NotListed (error_only_response e)).

(** [supabase.table("workers").select("*").execute().data] *)
Definition workers_select_all : M (list Worker) :=
  external (workers_select_fault env) (fun w => (workers w, w)).

(** [GET /api/workers] *)
Definition get_workers : World -> Listing Worker * World :=
  try_except
    (workers <~ workers_select_all ;;
     ret (Listed workers))
    (fun e => NotListed (error_only_response e)).

(** [DELETE /api/workers/<worker_id>] *)
Definition delete_worker (worker_id : string) : World -> Response * World :=
  try_except
    (attendance_delete worker_id ;;;
     workers_delete worker_id ;;;
     ret (mkResponse [("status", JStr "ok")] 200))
    error_only_response.

End Admin.

(** * Definitions the statements use *)

(** The record [verify] writes for a classifier reply. *)
Definition verify_record (env : Env) (wid : option string) (ai_result : string)
    (stamp : nat) : AttendanceRecord :=
  if Py.contains "PPE_OK" ai_result
  then mkAttendance wid (Some "PRESENT") "PASSED" "" None (Some (today env)) stamp
  else mkAttendance wid (Some "ABSENT") "FAILED"
         (Py.strip (Py.replace "PPE_MISSING:" "" ai_result)) None (Some (today env)) stamp.

(** The bucket once [file_name] was uploaded and removed again. *)
Definition bucket_after_frame (file_name : string) (file : Base64.bytes) (w : World)
    : list (string * Base64.bytes) :=
  filter (fun o => o.1 ∉ [file_name]) (bucket w ++ [(file_name, file)]).

Definition auto_file_name (env : Env) (data : Request) : string :=
  "auto_" +:+ str (get data "worker_id") +:+ "_" +:+ uuid4 env +:+ ".jpg".

Definition manual_file_name (env : Env) (data : Request) : string :=
  "manual_" +:+ str (get data "worker_id") +:+ "_" +:+ uuid4 env +:+ ".jpg".

(** The record [manual_upload] writes. *)
Definition manual_upload_record (env : Env) (wid : option string) (stamp : nat)
    : AttendanceRecord :=
  mkAttendance wid (Some "PRESENT") "MANUAL_VERIFIED" "Manual Override Confirmed"
    None (Some (today env)) stamp.

(** The record [manual_mark] writes. *)
Definition manual_mark_record (env : Env) (data : Request) (stamp : nat)
    : AttendanceRecord :=
  let status := get_default data "status" "PRESENT" in
  mkAttendance (get data "worker_id") status "ADMIN_OVERRIDE"
    ("Marked " +:+ str status +:+ " by Admin") None
    (get_default data "date" (today env)) stamp.

(** The frame that cannot be decoded: both handlers stop before any call. *)
Definition decode_image (image_data : option string) : result Base64.bytes :=
  match split_comma_1 image_data with
  | Ok raw_b64 => Base64.b64decode raw_b64
  | Raise e => Raise e
  end.

(** ** Sample requests, environments and worlds *)

(** An environment in which no external call fails and the classifier
    answers [reply]. *)
Definition env_reply (reply : string) : Env :=
  mkEnv "u1" "2026-01-01" (fun _ => GeminiText (Some reply))
    None None None None None None.

(** An environment in which only the classifier call raises. *)
Definition env_gemini_down : Env :=
  mkEnv "u1" "2026-01-01" (fun _ => GeminiRaises) None None None None None None.

(** An environment in which only the insert into [attendance] raises. *)
Definition env_insert_down : Env :=
  mkEnv "u1" "2026-01-01" (fun _ => GeminiText (Some "PPE_OK"))
    None None (Some "connection refused") None None None.

Definition frame_request (wid image : string) : Request :=
  {[ "worker_id" := Some wid; "image" := Some image ]}.

Definition world_one_worker : World :=
  mkWorld [mkWorker "1001" "Ann"] [] [] 0.

(** The spec's reading of the missing-items text: the reply with the prefix
    ["PPE_MISSING:"] stripped, then trimmed. *)
Definition spec_prefix_stripped (reply : string) : string :=
  Py.strip
    (if Py.startswith "PPE_MISSING:" reply
     then String.substring 12 (String.length reply - 12) reply
     else reply).

(** The invariant of the spec on one record: the missing-items text is empty
    unless the status is ABSENT. *)
Definition missing_only_when_absent (r : AttendanceRecord) : bool :=
  bool_decide (ppe_missing_items r = "")
  || bool_decide (attendance_status r = Some "ABSENT").

(** The rows [get_stats] fetches for a date. *)
Definition logs_of (d : string) (w : World) : list AttendanceRecord :=
  order_by_created_at (filter (fun r => date r = Some d) (attendance w)).

(** The last row of a worker among fetched rows. *)
Definition latest_row (logs : list AttendanceRecord) (wid : option string)
    : option AttendanceRecord :=
  last (filter (fun r => worker_id r = wid) logs).

(** The number of distinct workers of [logs] whose last row has status [v]. *)
Definition workers_with_latest (v : string) (logs : list AttendanceRecord) : Z :=
  Z.of_nat (length
    (filter (fun wid => attendance_status <$> latest_row logs wid = Some (Some v))
       (remove_dups (worker_id <$> logs)))).

Definition older_or_same (a b : AttendanceRecord) : Prop :=
  (created_at a <= created_at b)%nat.

(** A day on which worker 1001 was recorded PRESENT and then ABSENT, and
    worker 1002 was recorded LATE by the admin. *)
Definition world_present_then_absent : World :=
  mkWorld [mkWorker "1001" "Ann"; mkWorker "1002" "Bob"]
    [mkAttendance (Some "1001") (Some "PRESENT") "PASSED" "" None (Some "2026-01-01") 0;
     mkAttendance (Some "1002") (Some "LATE") "ADMIN_OVERRIDE" "Marked LATE by Admin" None
       (Some "2026-01-01") 1;
     mkAttendance (Some "1001") (Some "ABSENT") "FAILED" "[VEST]" None
       (Some "2026-01-01") 2]
    [] 3.

(** The world's clock is ahead of every stamp. *)
Definition clock_ahead (w : World) : Prop :=
  Forall (fun r => (created_at r < clock w)%nat) (attendance w).

(** The spec's reading of the payload: everything after the first comma. *)
Fixpoint after_first_comma (s : string) : option string :=
  match s with
  | EmptyString => None
  | String c r => if Ascii.eqb c "," then Some r else after_first_comma r
  end.

(** Well-formed base64 text: characters of the alphabet, then at most two
    pad characters, four characters per quad. *)
Fixpoint base64_shape (s : string) : bool :=
  match s with
  | EmptyString => true
  | String c r =>
      if Ascii.eqb c "="
      then match r with
           | EmptyString => true
           | String c' EmptyString => Ascii.eqb c' "="
           | _ => false
           end
      else bool_decide (is_Some (Base64.table_a2b c)) && base64_shape r
  end.

Definition valid_base64 (s : string) : bool :=
  (String.length s mod 4 =? 0)%nat && base64_shape s.

Definition comma : string := ",".

(** A text made of characters of the base64 alphabet only. *)
Fixpoint alphabet_only (s : string) : bool :=
  match s with
  | EmptyString => true
  | String c r =>
      negb (Ascii.eqb c "=") && bool_decide (is_Some (Base64.table_a2b c))
      && alphabet_only r
  end.

(** The id [add_worker] assigns in a world. *)
Definition next_worker_id (w : World) : Z :=
  match parsed_ids (w_worker_id <$> workers w) with
  | [] => 1001
  | ids => max_list ids + 1
  end.

(** [add_worker] called once for each name, in order. *)
Fixpoint register_all (env : Env) (names : list string) (w : World)
    : list Response * World :=
  match names with
  | [] => ([], w)
  | name :: rest =>
      let '(r, w1) := add_worker env {[ "name" := Some name ]} w in
      let '(rs, w2) := register_all env rest w1 in
      (r :: rs, w2)
  end.

Definition registered (id : Z) : Response :=
  mkResponse [("status", JStr "ok"); ("worker_id", JStr (Py.decimal id))] 200.

(** The [n] integers from [k] on. *)
Fixpoint ids_from (k : Z) (n : nat) : list Z :=
  match n with
  | O => []
  | S n' => k :: ids_from (k + 1) n'
  end.

(** The registry of the spec's example: ids 1001, "abc" and 1005. *)
Definition world_three_workers : World :=
  mkWorld [mkWorker "1001" "Ann"; mkWorker "abc" "Bob"; mkWorker "1005" "Cy"] [] [] 0.

Definition name_request (name : string) : Request := {[ "name" := Some name ]}.

(** Both deletions of [delete_worker] succeed. *)
Definition deletes_succeed : DeleteFaults := mkDeleteFaults None None.

(** The deletion from [attendance] succeeds, the one from [workers] raises. *)
Definition workers_delete_down : DeleteFaults :=
  mkDeleteFaults None (Some "timeout").

(** An environment in which only the removal from the bucket raises. *)
Definition env_remove_down : Env :=
  mkEnv "u1" "2026-01-01" (fun _ => GeminiText (Some "PPE_OK"))
    None (Some "storage unavailable") None None None None.

(** A text that is empty or starts with a character that is no blank. *)
Definition starts_clean (s : string) : bool :=
  match s with
  | EmptyString => true
  | String c _ => negb (Py.isspace c)
  end.

(** An environment in which only the queries on [workers] raise. *)
Definition env_lookup_down : Env :=
  mkEnv "u1" "2026-01-01" (fun _ => GeminiText (Some "PPE_OK"))
    None None None None (Some "read timeout") None.

(** A text without the blanks that [int] skips. *)
Fixpoint no_space_c (s : string) : bool :=
  match s with
  | EmptyString => true
  | String c r => negb (Py.isspace_c c) && no_space_c r
  end.

(** The text [s] written [n] times. *)
Fixpoint repeat_text (n : nat) (s : string) : string :=
  match n with
  | O => EmptyString
  | S k => s +:+ repeat_text k s
  end.

(** A registry whose only worker has the id made of 4300 nines. *)
Definition world_nines : World :=
  mkWorld [mkWorker (repeat_text 4300 "9") "Ann"] [] [] 0.

(** A request to [manual_mark] with a worker id and a status. *)
Definition mark_request (wid status : string) : Request :=
  {[ "worker_id" := Some wid; "status" := Some status ]}.

(** A character of the base64 alphabet. *)
Definition is_data (c : ascii) : bool :=
  bool_decide (is_Some (Base64.table_a2b c)).

(** The characters of a text that the decoder does not skip: those of the
    alphabet and the pad. *)
Fixpoint kept (s : string) : string :=
  match s with
  | EmptyString => EmptyString
  | String c r => if Ascii.eqb c "=" || is_data c then String c (kept r) else kept r
  end.

(** The number of characters of the alphabet in a text. *)
Fixpoint data_count (s : string) : nat :=
  match s with
  | EmptyString => O
  | String c r => if is_data c then S (data_count r) else data_count r
  end.

(** The pad sequence [pat] stands in [t] after a number of alphabet
    characters that, added to [q], is [k] modulo four. *)
Definition pad_after (pat : string) (k q : nat) (t : string) : Prop :=
  exists a rest, t = a +:+ pat +:+ rest /\ ((q + data_count a) mod 4 = k)%nat.

(** * Properties *)

(** ** The string operations on sample texts *)

Example upper_strip_reply : Py.upper (Py.strip "  ppe_missing: [vest]
") = "PPE_MISSING: [VEST]".
Proof. reflexivity. Qed.

Example contains_reply :
  Py.contains "PPE_OK" "X PPE_OK" = true /\ Py.contains "PPE_OK" "PPE_O" = false.
Proof. split; reflexivity. Qed.

Example replace_leftmost : Py.replace "aa" "b" "aaaxaa" = "baxb".
Proof. reflexivity. Qed.

Example split_fields :
  Py.split "," "a,b,,c" = ["a"; "b"; ""; "c"] /\ Py.split "," "" = [""]
  /\ Py.split "," ",a," = [""; "a"; ""].
Proof. repeat split; reflexivity. Qed.

Example int_literals :
  Py.int " 1_001 " = Some 1001 /\ Py.int "abc" = None /\ Py.int "-5" = Some (-5)
  /\ Py.int "" = None /\ Py.int "1__0" = None /\ Py.int "007" = Some 7
  /\ Py.int "+" = None
  /\ Py.int (String (ascii_of_nat 31) "12") = None
  /\ Py.int (String (ascii_of_nat 11) "12") = Some 12.
Proof. repeat split; reflexivity. Qed.

Example str_int_texts :
  Py.str_int 1006 = Ok "1006" /\ Py.str_int (-3) = Ok "-3" /\ Py.str_int 0 = Ok "0".
Proof. repeat split; reflexivity. Qed.

Example b64decode_texts :
  Base64.b64decode "QUJD" = Ok [Byte.x41; Byte.x42; Byte.x43]
  /\ Base64.b64decode "QUI=" = Ok [Byte.x41; Byte.x42]
  /\ Base64.b64decode "QQ==" = Ok [Byte.x41]
  /\ Base64.b64decode "!!" = Ok []
  /\ Base64.b64decode "QUI" = Raise (BinasciiError "Incorrect padding")
  /\ Base64.b64decode "Q" = Raise (BinasciiError
       "Invalid base64-encoded string: number of data characters (1) cannot be 1 more than a multiple of 4").
Proof. repeat split; reflexivity. Qed.

(** ** Running a handler step by step *)

Lemma external_ok {A} (run : World -> A * World) (w : World) :
  external None run w = (Ok (run w).1, (run w).2).
Proof. unfold external. destruct (run w); reflexivity. Qed.

Lemma external_fault {A} (msg : string) (run : World -> A * World) (w : World) :
  external (Some msg) run w = (Raise (ExternalError msg), w).
Proof. reflexivity. Qed.

(** [verify], once the frame is decoded, uploaded, classified and removed. *)
Lemma verify_run (env : Env) (data : Request) (w : World) raw image_bytes :
  split_comma_1 (get data "image") = Ok raw ->
  Base64.b64decode raw = Ok image_bytes ->
  upload_fault env = None ->
  remove_fault env = None ->
  verify env data w =
    let wid := get data "worker_id" in
    let ai_result := verify_ppe_with_gemini env raw in
    let b := bucket_after_frame (auto_file_name env data) image_bytes w in
    let w1 := mkWorld (workers w) (attendance w) b (clock w) in
    if Py.contains "NO_WORKER" ai_result then
      (mkResponse [("status", JStr "RETRY"); ("message", JStr "Worker not detected")] 200, w1)
    else
      let r := verify_record env wid ai_result (clock w) in
      match attendance_insert_fault env with
      | Some msg => (error_response (ExternalError msg), w1)
      | None =>
          let w2 := mkWorld (workers w) (attendance w ++ [r]) b (S (clock w)) in
          match workers_select_fault env with
          | Some msg => (error_response (ExternalError msg), w2)
          | None =>
              (mkResponse
                 [("status", JStr (default "" (attendance_status r)));
                  ("worker_name",
                   JStr match w_name <$> filter (fun x => w_worker_id x = str wid) (workers w) with
                        | name :: _ => name
                        | [] => "Worker"
                        end);
                  ("missing", JStr (ppe_missing_items r))] 200, w2)
          end
      end.
Proof.
  intros Hsplit Hdec Hup Hrm.
  unfold verify, try_except, bind, lift. rewrite Hsplit, Hdec.
  unfold storage_upload, storage_remove. rewrite Hup, Hrm, !external_ok.
  cbn [fst snd workers attendance bucket clock].
  fold (auto_file_name env data).
  fold (bucket_after_frame (auto_file_name env data) image_bytes w).
  cbv zeta.
  destruct (Py.contains "NO_WORKER" (verify_ppe_with_gemini env raw)); [reflexivity|].
  unfold attendance_insert, workers_select_name, verify_record.
  destruct (Py.contains "PPE_OK" (verify_ppe_with_gemini env raw));
    destruct (attendance_insert_fault env), (workers_select_fault env);
    reflexivity.
Qed.

Lemma manual_upload_run (env : Env) (data : Request) (w : World) raw image_bytes :
  split_comma_1 (get data "image") = Ok raw ->
  Base64.b64decode raw = Ok image_bytes ->
  upload_fault env = None ->
  manual_upload env data w =
    let file_name := manual_file_name env data in
    let r := manual_upload_record env (get data "worker_id") (clock w) in
    match attendance_insert_fault env with
    | Some msg =>
        (error_response (ExternalError msg),
         mkWorld (workers w) (attendance w) (bucket w ++ [(file_name, image_bytes)]) (clock w))
    | None =>
        match remove_fault env with
        | Some msg =>
            (error_response (ExternalError msg),
             mkWorld (workers w) (attendance w ++ [r])
               (bucket w ++ [(file_name, image_bytes)]) (S (clock w)))
        | None =>
            (mkResponse [("status", JStr "SUCCESS")] 200,
             mkWorld (workers w) (attendance w ++ [r])
               (bucket_after_frame file_name image_bytes w) (S (clock w)))
        end
    end.
Proof.
  intros Hsplit Hdec Hup.
  unfold manual_upload, try_except, bind, lift. rewrite Hsplit, Hdec.
  unfold storage_upload, storage_remove, attendance_insert.
  rewrite Hup, external_ok.
  fold (manual_file_name env data).
  destruct (attendance_insert_fault env), (remove_fault env); reflexivity.
Qed.

Lemma manual_mark_run (env : Env) (data : Request) (w : World) :
  manual_mark env data w =
    match attendance_insert_fault env with
    | Some msg => (error_only_response (ExternalError msg), w)
    | None =>
        (mkResponse [("status", JStr "SUCCESS")] 200,
         mkWorld (workers w) (attendance w ++ [manual_mark_record env data (clock w)])
           (bucket w) (S (clock w)))
    end.
Proof.
  unfold manual_mark, try_except, bind, attendance_insert.
  destruct (attendance_insert_fault env); reflexivity.
Qed.

Lemma verify_decode_fails (env : Env) (data : Request) (w : World) e :
  decode_image (get data "image") = Raise e ->
  verify env data w = (error_response e, w).
Proof.
  unfold decode_image, verify, try_except, bind, lift.
  destruct (split_comma_1 (get data "image")) as [raw|e'].
  - destruct (Base64.b64decode raw); intros [= ->]; reflexivity.
  - intros [= ->]; reflexivity.
Qed.

Lemma manual_upload_decode_fails (env : Env) (data : Request) (w : World) e :
  decode_image (get data "image") = Raise e ->
  manual_upload env data w = (error_response e, w).
Proof.
  unfold decode_image, manual_upload, try_except, bind, lift.
  destruct (split_comma_1 (get data "image")) as [raw|e'].
  - destruct (Base64.b64decode raw); intros [= ->]; reflexivity.
  - intros [= ->]; reflexivity.
Qed.

(** ** C1: the classification of the reply in [verify] *)

(** C1 (as amended): for every classifier reply, when the frame decodes and
    the upload, the removal and the insert succeed: a reply containing
    NO_WORKER gives the RETRY response and leaves the attendance table as it
    was; otherwise a reply containing PPE_OK appends exactly one record
    PRESENT / PASSED with empty missing items; otherwise exactly one record
    ABSENT / FAILED is appended whose missing items are the reply with every
    occurrence of "PPE_MISSING:" removed, then trimmed. *)
Theorem verify_classifies_reply (env : Env) (data : Request) (w : World) raw image_bytes :
  split_comma_1 (get data "image") = Ok raw ->
  Base64.b64decode raw = Ok image_bytes ->
  upload_fault env = None ->
  remove_fault env = None ->
  attendance_insert_fault env = None ->
  let ai_result := verify_ppe_with_gemini env raw in
  let out := verify env data w in
  if Py.contains "NO_WORKER" ai_result then
    out.1 = mkResponse [("status", JStr "RETRY");
                        ("message", JStr "Worker not detected")] 200
    /\ attendance out.2 = attendance w
  else if Py.contains "PPE_OK" ai_result then
    attendance out.2 =
      attendance w ++ [mkAttendance (get data "worker_id") (Some "PRESENT") "PASSED" ""
                         None (Some (today env)) (clock w)]
  else
    attendance out.2 =
      attendance w ++ [mkAttendance (get data "worker_id") (Some "ABSENT") "FAILED"
                         (Py.strip (Py.replace "PPE_MISSING:" "" ai_result))
                         None (Some (today env)) (clock w)].
Proof.
  intros Hsplit Hdec Hup Hrm Hins ai_result out. subst out.
  rewrite (verify_run env data w raw image_bytes Hsplit Hdec Hup Hrm).
  cbv zeta. fold ai_result. rewrite Hins. unfold verify_record.
  destruct (Py.contains "NO_WORKER" ai_result); [split; reflexivity|].
  destruct (Py.contains "PPE_OK" ai_result), (workers_select_fault env); reflexivity.
Qed.

(** The three sample replies of the spec. *)
Lemma verify_classifies_reply_witness :
  attendance (verify (env_reply "PPE_MISSING: [VEST]")
                (frame_request "1001" "data:image/jpeg;base64,QUJD") world_one_worker).2
  = [mkAttendance (Some "1001") (Some "ABSENT") "FAILED" "[VEST]" None
       (Some "2026-01-01") 0].
Proof.
  exact (verify_classifies_reply (env_reply "PPE_MISSING: [VEST]")
           (frame_request "1001" "data:image/jpeg;base64,QUJD") world_one_worker
           "QUJD" [Byte.x41; Byte.x42; Byte.x43]
           eq_refl eq_refl eq_refl eq_refl eq_refl).
Defined.

(** C1 (as stated) fails: on the reply "SEEN PPE_MISSING: [VEST]" the code
    removes the marker in the middle of the text, while stripping a prefix
    would leave the reply unchanged. *)
Lemma verify_missing_is_not_prefix_strip :
  let env := env_reply "SEEN PPE_MISSING: [VEST]" in
  let ai_result := verify_ppe_with_gemini env "QUJD" in
  Py.contains "NO_WORKER" ai_result = false /\
  Py.contains "PPE_OK" ai_result = false /\
  spec_prefix_stripped ai_result = "SEEN PPE_MISSING: [VEST]" /\
  attendance (verify env (frame_request "1001" "data:image/jpeg;base64,QUJD")
                world_one_worker).2
  = [mkAttendance (Some "1001") (Some "ABSENT") "FAILED" "SEEN  [VEST]" None
       (Some "2026-01-01") 0] /\
  attendance (verify env (frame_request "1001" "data:image/jpeg;base64,QUJD")
                world_one_worker).2
  <> [mkAttendance (Some "1001") (Some "ABSENT") "FAILED"
        (spec_prefix_stripped ai_result) None (Some "2026-01-01") 0].
Proof.
  cbv zeta. repeat split; try reflexivity.
  vm_compute. discriminate.
Qed.

(** ** C2: missing items and the attendance status *)

(** C2 (as amended): [verify] writes at most one record and that record has
    missing items only when it is ABSENT (a PRESENT record has none);
    [manual_upload] writes at most one record, always PRESENT with the text
    "Manual Override Confirmed"; [manual_mark] writes at most one record,
    whose text is "Marked <status> by Admin" whatever the status is. *)
Theorem writers_missing_items (env : Env) (data : Request) (w : World) :
  (attendance (verify env data w).2 = attendance w \/
   exists r, attendance (verify env data w).2 = attendance w ++ [r]
             /\ missing_only_when_absent r = true
             /\ (attendance_status r = Some "PRESENT" /\ ppe_missing_items r = ""
                 \/ attendance_status r = Some "ABSENT")) /\
  (attendance (manual_upload env data w).2 = attendance w \/
   attendance (manual_upload env data w).2 =
     attendance w ++ [mkAttendance (get data "worker_id") (Some "PRESENT")
                        "MANUAL_VERIFIED" "Manual Override Confirmed" None
                        (Some (today env)) (clock w)]) /\
  (attendance (manual_mark env data w).2 = attendance w \/
   attendance (manual_mark env data w).2 =
     attendance w ++ [mkAttendance (get data "worker_id")
                        (get_default data "status" "PRESENT") "ADMIN_OVERRIDE"
                        ("Marked " +:+ str (get_default data "status" "PRESENT")
                         +:+ " by Admin") None
                        (get_default data "date" (today env)) (clock w)]).
Proof.
  split; [|split].
  - destruct (decode_image (get data "image")) as [image_bytes|e] eqn:Hd.
    2:{ rewrite (verify_decode_fails env data w e Hd). left; reflexivity. }
    unfold decode_image in Hd.
    destruct (split_comma_1 (get data "image")) as [raw|] eqn:Hs; [|discriminate].
    destruct (upload_fault env) as [m|] eqn:Hup.
    { left. unfold verify, try_except, bind, lift, storage_upload.
      rewrite Hs, Hd, Hup. reflexivity. }
    destruct (remove_fault env) as [m|] eqn:Hrm.
    { left. unfold verify, try_except, bind, lift, storage_upload, storage_remove.
      rewrite Hs, Hd, Hup, Hrm. reflexivity. }
    rewrite (verify_run env data w raw image_bytes Hs Hd Hup Hrm). cbv zeta.
    destruct (Py.contains "NO_WORKER" _); [left; reflexivity|].
    destruct (attendance_insert_fault env); [left; reflexivity|].
    right. exists (verify_record env (get data "worker_id")
                     (verify_ppe_with_gemini env raw) (clock w)).
    split; [destruct (workers_select_fault env); reflexivity|].
    unfold verify_record.
    destruct (Py.contains "PPE_OK" _); split; try reflexivity.
    + left; split; reflexivity.
    + unfold missing_only_when_absent. cbn. apply orb_true_r.
    + right; reflexivity.
  - destruct (decode_image (get data "image")) as [image_bytes|e] eqn:Hd.
    2:{ rewrite (manual_upload_decode_fails env data w e Hd). left; reflexivity. }
    unfold decode_image in Hd.
    destruct (split_comma_1 (get data "image")) as [raw|] eqn:Hs; [|discriminate].
    destruct (upload_fault env) as [m|] eqn:Hup.
    { left. unfold manual_upload, try_except, bind, lift, storage_upload.
      rewrite Hs, Hd, Hup. reflexivity. }
    rewrite (manual_upload_run env data w raw image_bytes Hs Hd Hup). cbv zeta.
    destruct (attendance_insert_fault env); [left; reflexivity|].
    right. destruct (remove_fault env); reflexivity.
  - rewrite manual_mark_run.
    destruct (attendance_insert_fault env); [left|right]; reflexivity.
Qed.

(** C2 (as stated) fails: [manual_upload] persists a PRESENT record whose
    missing-items text is not empty, and so does [manual_mark]. *)
Lemma manual_paths_fill_missing_items :
  let w1 := (manual_upload (env_reply "PPE_OK")
               (frame_request "1001" "data:image/jpeg;base64,QUJD") world_one_worker).2 in
  let w2 := (manual_mark (env_reply "PPE_OK") {[ "worker_id" := Some "1001" ]}
               world_one_worker).2 in
  attendance w1 = [mkAttendance (Some "1001") (Some "PRESENT") "MANUAL_VERIFIED"
                     "Manual Override Confirmed" None (Some "2026-01-01") 0] /\
  attendance w2 = [mkAttendance (Some "1001") (Some "PRESENT") "ADMIN_OVERRIDE"
                     "Marked PRESENT by Admin" None (Some "2026-01-01") 0] /\
  Forall (fun r => missing_only_when_absent r = false) (attendance w1 ++ attendance w2).
Proof.
  cbv zeta. split; [reflexivity|]. split; [reflexivity|].
  vm_compute. repeat constructor.
Qed.

(** ** C5: the uploaded frame *)

(** C5 fails in [manual_upload]: when the frame is uploaded and the insert
    into [attendance] raises, the handler answers with the error response
    and the uploaded object stays in the bucket; no record is written. *)
Theorem manual_upload_insert_failure_keeps_frame
    (env : Env) (data : Request) (w : World) raw image_bytes msg :
  split_comma_1 (get data "image") = Ok raw ->
  Base64.b64decode raw = Ok image_bytes ->
  upload_fault env = None ->
  attendance_insert_fault env = Some msg ->
  manual_upload env data w =
    (mkResponse [("status", JStr "ERROR"); ("message", JStr msg)] 500,
     mkWorld (workers w) (attendance w)
       (bucket w ++ [("manual_" +:+ str (get data "worker_id") +:+ "_" +:+ uuid4 env
                      +:+ ".jpg", image_bytes)])
       (clock w)).
Proof.
  intros Hs Hd Hup Hins.
  rewrite (manual_upload_run env data w raw image_bytes Hs Hd Hup).
  cbv zeta. rewrite Hins. reflexivity.
Qed.

Lemma manual_upload_insert_failure_keeps_frame_witness :
  manual_upload env_insert_down
    (frame_request "1001" "data:image/jpeg;base64,QUJD") world_one_worker =
  (mkResponse [("status", JStr "ERROR"); ("message", JStr "connection refused")] 500,
   mkWorld [mkWorker "1001" "Ann"] []
     [("manual_1001_u1.jpg", [Byte.x41; Byte.x42; Byte.x43])] 0).
Proof.
  exact (manual_upload_insert_failure_keeps_frame env_insert_down
           (frame_request "1001" "data:image/jpeg;base64,QUJD") world_one_worker
           "QUJD" [Byte.x41; Byte.x42; Byte.x43] "connection refused"
           eq_refl eq_refl eq_refl eq_refl).
Defined.

(** ** C6: a classifier call that raises *)

(** C6: when the classifier call raises, [verify_ppe_with_gemini] returns
    "ERROR_GEMINI"; in [verify] (frame decoded, upload, removal and insert
    succeeding) that reply appends exactly one record ABSENT / FAILED with
    missing items "ERROR_GEMINI", and the handler answers with a response:
    ABSENT when the name lookup succeeds, the error response otherwise. *)
Theorem gemini_error_marks_absent (env : Env) (data : Request) (w : World) raw image_bytes :
  split_comma_1 (get data "image") = Ok raw ->
  Base64.b64decode raw = Ok image_bytes ->
  generate_content env raw = GeminiRaises ->
  upload_fault env = None ->
  remove_fault env = None ->
  attendance_insert_fault env = None ->
  verify_ppe_with_gemini env raw = "ERROR_GEMINI" /\
  attendance (verify env data w).2 =
    attendance w ++ [mkAttendance (get data "worker_id") (Some "ABSENT") "FAILED"
                       "ERROR_GEMINI" None (Some (today env)) (clock w)] /\
  match workers_select_fault env with
  | None =>
      exists name,
        (verify env data w).1 =
          mkResponse [("status", JStr "ABSENT"); ("worker_name", JStr name);
                      ("missing", JStr "ERROR_GEMINI")] 200
  | Some msg =>
      (verify env data w).1 =
        mkResponse [("status", JStr "ERROR"); ("message", JStr msg)] 500
  end.
Proof.
  intros Hs Hd Hg Hup Hrm Hins.
  assert (Hai : verify_ppe_with_gemini env raw = "ERROR_GEMINI").
  { unfold verify_ppe_with_gemini. rewrite Hg. reflexivity. }
  split; [exact Hai|].
  rewrite (verify_run env data w raw image_bytes Hs Hd Hup Hrm).
  cbv zeta. rewrite Hai, Hins.
  change (Py.contains "NO_WORKER" "ERROR_GEMINI") with false. cbv iota.
  destruct (workers_select_fault env); split; try reflexivity.
  eexists. reflexivity.
Qed.

Lemma gemini_error_marks_absent_witness :
  attendance (verify env_gemini_down
                (frame_request "1001" "data:image/jpeg;base64,QUJD") world_one_worker).2 =
  [mkAttendance (Some "1001") (Some "ABSENT") "FAILED" "ERROR_GEMINI" None
     (Some "2026-01-01") 0].
Proof.
  exact (proj1 (proj2 (gemini_error_marks_absent env_gemini_down
           (frame_request "1001" "data:image/jpeg;base64,QUJD") world_one_worker
           "QUJD" [Byte.x41; Byte.x42; Byte.x43]
           eq_refl eq_refl eq_refl eq_refl eq_refl eq_refl))).
Defined.

(** ** C3: the daily aggregation *)

Lemma insert_by_created_at_perm r l : insert_by_created_at r l ≡ₚ r :: l.
Proof.
  induction l as [|x l IH]; [reflexivity|]. simpl.
  destruct (created_at r <=? created_at x)%nat; [reflexivity|].
  rewrite IH. apply Permutation_swap.
Qed.

Lemma order_by_created_at_perm l : order_by_created_at l ≡ₚ l.
Proof.
  induction l as [|x l IH]; [reflexivity|]. simpl.
  rewrite insert_by_created_at_perm. by rewrite IH.
Qed.

Lemma insert_by_created_at_sorted r l :
  StronglySorted older_or_same l ->
  StronglySorted older_or_same (insert_by_created_at r l).
Proof.
  induction 1 as [|x l Hl IH Hx]; simpl.
  - repeat constructor.
  - destruct (created_at r <=? created_at x)%nat eqn:E.
    + apply Nat.leb_le in E. constructor; [by constructor|].
      constructor; [exact E|].
      eapply Forall_impl; [exact Hx|]. unfold older_or_same. intros; simpl in *. lia.
    + apply Nat.leb_gt in E. constructor; [exact IH|].
      rewrite insert_by_created_at_perm. constructor; [|exact Hx].
      unfold older_or_same. lia.
Qed.

Lemma order_by_created_at_sorted l : StronglySorted older_or_same (order_by_created_at l).
Proof.
  induction l as [|x l IH]; simpl; [constructor|].
  by apply insert_by_created_at_sorted.
Qed.

Lemma latest_status_map_snoc logs l :
  latest_status_map (logs ++ [l]) = <[worker_id l := attendance_status l]> (latest_status_map logs).
Proof. unfold latest_status_map. by rewrite foldl_app. Qed.

Lemma latest_status_map_lookup logs wid :
  latest_status_map logs !! wid = attendance_status <$> latest_row logs wid.
Proof.
  unfold latest_row.
  induction logs as [|l logs IH] using rev_ind; [done|].
  rewrite latest_status_map_snoc, filter_app, lookup_insert.
  rewrite filter_cons, filter_nil.
  case_decide.
  - by rewrite last_snoc.
  - by rewrite app_nil_r.
Qed.

Lemma count_by_keys (m : gmap (option string) (option string)) (ks : list (option string)) v :
  NoDup ks -> (forall k, k ∈ ks <-> is_Some (m !! k)) ->
  length (filter (fun kv => kv.2 = Some v) (map_to_list m))
  = length (filter (fun k => m !! k = Some (Some v)) ks).
Proof.
  intros Hnd Hks.
  set (l := (fun k => (k, default None (m !! k))) <$> ks).
  assert (Hfst : l.*1 = ks).
  { unfold l. rewrite <- list_fmap_compose. apply list_fmap_id. }
  assert (Hm : m = list_to_map l).
  { apply map_eq. intros k. destruct (m !! k) as [x|] eqn:E.
    - symmetry. apply elem_of_list_to_map; [by rewrite Hfst|].
      unfold l. apply list_elem_of_fmap. exists k. rewrite E. split; [done|].
      apply Hks. by rewrite E.
    - symmetry. apply not_elem_of_list_to_map. rewrite Hfst.
      intros Hin. apply Hks in Hin. rewrite E in Hin. by destruct Hin. }
  rewrite Hm at 1. rewrite map_to_list_to_map by (by rewrite Hfst).
  unfold l. 
  assert (Hall : forall k, k ∈ ks -> is_Some (m !! k)) by (intros; by apply Hks).
  clear Hm Hfst l Hnd Hks.
  induction ks as [|k ks IH]; [done|].
  assert (Hk : is_Some (m !! k)) by (apply Hall; left).
  destruct Hk as [x Hx].
  rewrite fmap_cons, !filter_cons. simpl. rewrite Hx. simpl.
  specialize (IH (fun k' Hk' => Hall k' (list_elem_of_further _ _ _ Hk'))).
  repeat case_decide; simplify_eq; simpl; by rewrite ?IH.
Qed.

Lemma latest_row_is_Some logs k :
  is_Some (latest_row logs k) <-> k ∈ worker_id <$> logs.
Proof.
  unfold latest_row. rewrite list_elem_of_fmap. split.
  - intros [r Hr]. apply last_Some in Hr as [l' Hl'].
    assert (Hin : r ∈ filter (fun r => worker_id r = k) logs).
    { rewrite Hl'. apply elem_of_app. right. constructor. }
    apply list_elem_of_filter in Hin as [? ?]. eauto.
  - intros (r & -> & Hin).
    assert (Hin' : r ∈ filter (fun r' => worker_id r' = worker_id r) logs).
    { apply list_elem_of_filter. done. }
    destruct (filter _ logs) as [|y l'] using rev_ind.
    + by apply elem_of_nil in Hin'.
    + rewrite last_snoc. eauto.
Qed.

Lemma latest_row_newest logs wid r :
  StronglySorted older_or_same logs ->
  latest_row logs wid = Some r ->
  r ∈ logs /\ worker_id r = wid /\
  forall r', r' ∈ logs -> worker_id r' = wid -> (created_at r' <= created_at r)%nat.
Proof.
  unfold latest_row. induction 1 as [|x l Hl IH Hx]; [done|].
  rewrite filter_cons. case_decide as Hw.
  - rewrite last_cons. destruct (last (filter _ l)) as [y|] eqn:E.
    + intros [= ->]. destruct (IH eq_refl) as (Hin & Hwid & Hnew).
      split; [by right|]. split; [done|].
      intros r' Hr' Hw'. apply elem_of_cons in Hr' as [->|Hr']; [|by apply Hnew].
      rewrite Forall_forall in Hx. by apply Hx.
    + intros [= ->]. split; [by left|]. split; [done|].
      intros r' Hr' Hw'. apply elem_of_cons in Hr' as [->|Hr']; [done|].
      assert (Hs : is_Some (latest_row l wid)).
      { apply latest_row_is_Some, list_elem_of_fmap. eauto. }
      unfold latest_row in Hs. rewrite E in Hs. by destruct Hs.
  - intros E. destruct (IH E) as (Hin & Hwid & Hnew).
    split; [by right|]. split; [done|].
    intros r' Hr' Hw'. apply elem_of_cons in Hr' as [->|Hr']; [done|by apply Hnew].
Qed.

Lemma count_status_latest v logs :
  count_status v (latest_status_map logs) = workers_with_latest v logs.
Proof.
  unfold count_status, workers_with_latest. f_equal.
  rewrite (count_by_keys _ (remove_dups (worker_id <$> logs))).
  - f_equal. apply list_filter_iff. intros k. by rewrite latest_status_map_lookup.
  - apply NoDup_remove_dups.
  - intros k. rewrite elem_of_remove_dups, latest_status_map_lookup, <- latest_row_is_Some.
    by rewrite fmap_is_Some.
Qed.

(** C3: for every date, [get_stats] (its two queries succeeding) works on
    that date's rows in ascending [created_at] order; its per-worker map
    holds for each worker the status of the last of these rows, which is a
    row of that worker and date that no other such row is newer than; the
    counts are the numbers of distinct workers whose last row is exactly
    PRESENT, respectively ABSENT, so a worker whose last status is neither is
    in no count. *)
Theorem get_stats_latest_status_wins (env : Env) (args : gmap string string) (w : World) :
  attendance_select_fault env = None ->
  workers_select_fault env = None ->
  let d := default (today env) (args !! "date") in
  let rows := filter (fun r => date r = Some d) (attendance w) in
  let logs := order_by_created_at rows in
  logs ≡ₚ rows /\
  StronglySorted (fun a b => (created_at a <= created_at b)%nat) logs /\
  (forall wid,
     latest_status_map logs !! wid
     = attendance_status <$> last (filter (fun r => worker_id r = wid) logs)) /\
  (forall wid r,
     last (filter (fun r => worker_id r = wid) logs) = Some r ->
     r ∈ rows /\ worker_id r = wid /\
     forall r', r' ∈ rows -> worker_id r' = wid -> (created_at r' <= created_at r)%nat) /\
  get_stats env args w =
    (mkResponse
       [("present", JNum (Z.of_nat (length
           (filter (fun wid =>
              attendance_status <$> last (filter (fun r => worker_id r = wid) logs)
              = Some (Some "PRESENT"))
              (remove_dups (worker_id <$> logs))))));
        ("absent", JNum (Z.of_nat (length
           (filter (fun wid =>
              attendance_status <$> last (filter (fun r => worker_id r = wid) logs)
              = Some (Some "ABSENT"))
              (remove_dups (worker_id <$> logs))))));
        ("total_workers", JNum (Z.of_nat (length (workers w))));
        ("date", JStr d)] 200, w).
Proof.
  intros Hsel Hwk d rows logs.
  assert (Hperm : logs ≡ₚ rows) by apply order_by_created_at_perm.
  assert (Hsorted : StronglySorted older_or_same logs)
    by apply order_by_created_at_sorted.
  split; [exact Hperm|]. split; [exact Hsorted|].
  split; [intros wid; apply latest_status_map_lookup|].
  split.
  - intros wid r Hr.
    destruct (latest_row_newest logs wid r Hsorted Hr) as (Hin & Hwid & Hnew).
    split; [by rewrite <- Hperm|]. split; [done|].
    intros r' Hr'. apply Hnew. by rewrite Hperm.
  - unfold get_stats, try_except, bind, attendance_select_date, workers_count.
    rewrite Hsel, Hwk, !external_ok. cbn [fst snd].
    fold d. fold rows. fold logs.
    rewrite !count_status_latest. reflexivity.
Qed.

Lemma get_stats_latest_status_wins_witness :
  get_stats (env_reply "PPE_OK") ∅ world_present_then_absent =
  (mkResponse [("present", JNum 0); ("absent", JNum 1); ("total_workers", JNum 2);
               ("date", JStr "2026-01-01")] 200, world_present_then_absent).
Proof.
  exact (proj2 (proj2 (proj2 (proj2
    (get_stats_latest_status_wins (env_reply "PPE_OK") ∅ world_present_then_absent
       eq_refl eq_refl))))).
Defined.

Lemma filter_none {A} (P : A -> Prop) `{!forall x, Decision (P x)} (l : list A) :
  Forall (fun x => ~ P x) l -> filter P l = [].
Proof.
  induction 1 as [|x l Hx _ IH]; [done|].
  rewrite filter_cons, decide_False by done. exact IH.
Qed.

Lemma get_stats_run (env : Env) (args : gmap string string) (w : World) :
  attendance_select_fault env = None ->
  workers_select_fault env = None ->
  get_stats env args w =
    let d := default (today env) (args !! "date") in
    let m := latest_status_map (logs_of d w) in
    (mkResponse [("present", JNum (count_status "PRESENT" m));
                 ("absent", JNum (count_status "ABSENT" m));
                 ("total_workers", JNum (Z.of_nat (length (workers w))));
                 ("date", JStr d)] 200, w).
Proof.
  intros Hsel Hwk.
  unfold get_stats, try_except, bind, attendance_select_date, workers_count.
  rewrite Hsel, Hwk, !external_ok. reflexivity.
Qed.

(** ** C9: the total of registered workers *)

(** C9: [get_stats] (its two queries succeeding) reports as total_workers
    the number of rows of the [workers] table, whatever date is asked for;
    for a date without attendance rows it reports present 0 and absent 0
    with that same total. *)
Theorem get_stats_total_workers (env : Env) (args : gmap string string) (w : World) :
  attendance_select_fault env = None ->
  workers_select_fault env = None ->
  let d := default (today env) (args !! "date") in
  (exists present absent,
     get_stats env args w =
       (mkResponse [("present", JNum present); ("absent", JNum absent);
                    ("total_workers", JNum (Z.of_nat (length (workers w))));
                    ("date", JStr d)] 200, w)) /\
  (Forall (fun r => date r <> Some d) (attendance w) ->
   get_stats env args w =
     (mkResponse [("present", JNum 0); ("absent", JNum 0);
                  ("total_workers", JNum (Z.of_nat (length (workers w))));
                  ("date", JStr d)] 200, w)).
Proof.
  intros Hsel Hwk d. rewrite (get_stats_run env args w Hsel Hwk). cbv zeta. fold d.
  split; [eauto|].
  intros Hnone. unfold logs_of. rewrite (filter_none _ _ Hnone). reflexivity.
Qed.

Lemma get_stats_total_workers_witness :
  get_stats (env_reply "PPE_OK") {[ "date" := "2026-02-02" ]} world_present_then_absent =
  (mkResponse [("present", JNum 0); ("absent", JNum 0); ("total_workers", JNum 2);
               ("date", JStr "2026-02-02")] 200, world_present_then_absent).
Proof.
  refine (proj2 (get_stats_total_workers (env_reply "PPE_OK")
                   {[ "date" := "2026-02-02" ]} world_present_then_absent
                   eq_refl eq_refl) _).
  repeat constructor; discriminate.
Defined.

(** ** C10: attendance of a worker that is not registered *)

Lemma insert_by_created_at_snoc x r l :
  (created_at x <= created_at r)%nat ->
  insert_by_created_at x (l ++ [r]) = insert_by_created_at x l ++ [r].
Proof.
  intros Hle. induction l as [|y l IH]; simpl.
  - apply Nat.leb_le in Hle. by rewrite Hle.
  - destruct (created_at x <=? created_at y)%nat; [done|]. by rewrite IH.
Qed.

Lemma order_by_created_at_snoc r l :
  Forall (fun x => (created_at x <= created_at r)%nat) l ->
  order_by_created_at (l ++ [r]) = order_by_created_at l ++ [r].
Proof.
  induction 1 as [|x l Hx _ IH]; [done|].
  simpl. rewrite IH. by apply insert_by_created_at_snoc.
Qed.

Lemma logs_of_new_row d w r ws b c :
  clock_ahead w -> date r = Some d -> created_at r = clock w ->
  logs_of d (mkWorld ws (attendance w ++ [r]) b c) = logs_of d w ++ [r].
Proof.
  intros Hahead Hd Hc. unfold logs_of. cbn [attendance].
  rewrite filter_app, filter_cons, decide_True, filter_nil by done.
  apply order_by_created_at_snoc.
  apply Forall_forall. intros x Hx. apply list_elem_of_filter in Hx as [_ Hx].
  unfold clock_ahead in Hahead. rewrite Forall_forall in Hahead.
  specialize (Hahead x Hx). lia.
Qed.

Lemma logs_of_other_date d w r ws b c :
  date r <> Some d ->
  logs_of d (mkWorld ws (attendance w ++ [r]) b c) = logs_of d w.
Proof.
  intros Hd. unfold logs_of. cbn [attendance].
  by rewrite filter_app, filter_cons, decide_False, filter_nil, app_nil_r.
Qed.

(** The count of a status once a key is set: the other keys count as
    before, the key counts when its new value is the status. *)
Lemma count_status_insert (v : string) (m : gmap (option string) (option string))
    (k x : option string) :
  count_status v (<[k := x]> m)
  = count_status v (delete k m) + (if bool_decide (x = Some v) then 1 else 0).
Proof.
  unfold count_status. rewrite <- (insert_delete_eq m k x).
  rewrite (map_to_list_insert (delete k m) k x) by apply lookup_delete_eq.
  rewrite filter_cons. cbn [snd].
  case_bool_decide; [rewrite decide_True by done|rewrite decide_False by done];
    cbn [length]; lia.
Qed.

Lemma new_row_latest (w : World) r d ws b c :
  clock_ahead w -> date r = Some d -> created_at r = clock w ->
  latest_status_map (logs_of d (mkWorld ws (attendance w ++ [r]) b c))
  = <[worker_id r := attendance_status r]> (latest_status_map (logs_of d w)).
Proof.
  intros Hahead Hd Hc.
  by rewrite (logs_of_new_row d w r ws b c Hahead Hd Hc), latest_status_map_snoc.
Qed.

(** C10 as stated fails for a mark whose status is neither PRESENT nor
    ABSENT: the mark of the unregistered id 9999 with the status LATE is
    answered SUCCESS and its record is inserted, yet the aggregation of
    that day counts it neither as present nor as absent. *)
Lemma late_mark_is_not_counted :
  let w' :=
    mkWorld [mkWorker "1001" "Ann"]
      [mkAttendance (Some "9999") (Some "LATE") "ADMIN_OVERRIDE"
         "Marked LATE by Admin" None (Some "2026-01-01") 0] [] 1 in
  manual_mark (env_reply "PPE_OK") (mark_request "9999" "LATE") world_one_worker =
    (mkResponse [("status", JStr "SUCCESS")] 200, w') /\
  get_stats (env_reply "PPE_OK") ∅ w' =
    (mkResponse [("present", JNum 0); ("absent", JNum 0);
                 ("total_workers", JNum 1); ("date", JStr "2026-01-01")] 200, w').
Proof. cbv zeta. split; vm_compute; reflexivity. Qed.

(** C10 (amended): with the clock ahead of the stored stamps and no call
    failing, neither handler answers NOT_FOUND for an id without a row in
    [workers].  [verify] on a decoded frame and a conclusive reply appends
    the PRESENT or ABSENT record for the id and answers with that status
    and the name "Worker"; [manual_mark] appends its record and answers
    SUCCESS, for every id.  [workers] is unchanged, so [get_stats] still
    reports the old total.  In the aggregation of the record's date the
    record becomes the latest of its id, and it is counted under a status
    only when its own status is that one: a [verify] record adds one to
    PRESENT or to ABSENT, a mark with another status (LATE, null) is
    counted under neither, and a mark whose date is null changes the
    aggregation of no date. *)
Theorem unregistered_worker_is_recorded (env : Env) (data : Request) (w : World) :
  let wid := get data "worker_id" in
  clock_ahead w ->
  attendance_insert_fault env = None ->
  attendance_select_fault env = None ->
  workers_select_fault env = None ->
  (forall raw image_bytes,
     filter (fun x => w_worker_id x = str wid) (workers w) = [] ->
     split_comma_1 (get data "image") = Ok raw ->
     Base64.b64decode raw = Ok image_bytes ->
     Py.contains "NO_WORKER" (verify_ppe_with_gemini env raw) = false ->
     upload_fault env = None ->
     remove_fault env = None ->
     exists st missing,
       let w' := (verify env data w).2 in
       let m0 := latest_status_map
                   (order_by_created_at
                      (filter (fun r => date r = Some (today env)) (attendance w))) in
       let m := latest_status_map
                  (order_by_created_at
                     (filter (fun r => date r = Some (today env)) (attendance w'))) in
       (st = "PRESENT" \/ st = "ABSENT") /\
       (verify env data w).1 =
         mkResponse [("status", JStr st); ("worker_name", JStr "Worker");
                     ("missing", JStr missing)] 200 /\
       attendance w' =
         attendance w ++ [mkAttendance wid (Some st)
                            (if bool_decide (st = "PRESENT") then "PASSED" else "FAILED")
                            missing None (Some (today env)) (clock w)] /\
       workers w' = workers w /\
       get_stats env ∅ w' =
         (mkResponse [("present", JNum (count_status "PRESENT" m));
                      ("absent", JNum (count_status "ABSENT" m));
                      ("total_workers", JNum (Z.of_nat (length (workers w))));
                      ("date", JStr (today env))] 200, w') /\
       m = <[wid := Some st]> m0 /\
       count_status st m = count_status st (delete wid m0) + 1) /\
  (let status := get_default data "status" "PRESENT" in
   let w' := (manual_mark env data w).2 in
   (manual_mark env data w).1 = mkResponse [("status", JStr "SUCCESS")] 200 /\
   attendance w' =
     attendance w ++ [mkAttendance wid status "ADMIN_OVERRIDE"
                        ("Marked " +:+ str status +:+ " by Admin") None
                        (get_default data "date" (today env)) (clock w)] /\
   workers w' = workers w /\
   (forall d,
      get_default data "date" (today env) = Some d ->
      let m0 := latest_status_map
                  (order_by_created_at (filter (fun r => date r = Some d) (attendance w))) in
      let m := latest_status_map
                 (order_by_created_at (filter (fun r => date r = Some d) (attendance w'))) in
      get_stats env {[ "date" := d ]} w' =
        (mkResponse [("present", JNum (count_status "PRESENT" m));
                     ("absent", JNum (count_status "ABSENT" m));
                     ("total_workers", JNum (Z.of_nat (length (workers w))));
                     ("date", JStr d)] 200, w') /\
      m = <[wid := status]> m0 /\
      forall v, count_status v m
                = count_status v (delete wid m0)
                  + (if bool_decide (status = Some v) then 1 else 0)) /\
   (forall d,
      get_default data "date" (today env) <> Some d ->
      (get_stats env {[ "date" := d ]} w').1 = (get_stats env {[ "date" := d ]} w).1)).
Proof.
  intros wid Hahead Hins Hsel Hwk.
  split.
  - intros raw image_bytes Hnone Hs Hd Hconcl Hup Hrm.
    rewrite (verify_run env data w raw image_bytes Hs Hd Hup Hrm).
    cbv zeta. rewrite Hconcl, Hins, Hwk. fold wid. rewrite Hnone.
    cbn [fst snd fmap list_fmap attendance workers].
    set (b := bucket_after_frame _ _ _).
    set (r := verify_record env wid (verify_ppe_with_gemini env raw) (clock w)).
    rewrite (get_stats_run env ∅ _ Hsel Hwk). cbv zeta.
    rewrite lookup_empty. cbn [default workers].
    fold (logs_of (today env) (mkWorld (workers w) (attendance w ++ [r]) b (S (clock w)))).
    fold (logs_of (today env) w).
    assert (Hr : exists st missing,
               (st = "PRESENT" \/ st = "ABSENT") /\
               r = mkAttendance wid (Some st)
                     (if bool_decide (st = "PRESENT") then "PASSED" else "FAILED")
                     missing None (Some (today env)) (clock w)).
    { unfold r, verify_record.
      destruct (Py.contains "PPE_OK" _).
      - exists "PRESENT", "". split; [by left|reflexivity].
      - exists "ABSENT", (Py.strip (Py.replace "PPE_MISSING:" ""
                                     (verify_ppe_with_gemini env raw))).
        split; [by right|reflexivity]. }
    destruct Hr as (st & missing & Hst & Hr).
    exists st, missing.
    assert (Hdate : date r = Some (today env)) by (by rewrite Hr).
    assert (Hstamp : created_at r = clock w) by (by rewrite Hr).
    pose proof (new_row_latest w r (today env) (workers w) b (S (clock w))
                  Hahead Hdate Hstamp) as Hm.
    replace (worker_id r) with wid in Hm by (by rewrite Hr).
    replace (attendance_status r) with (Some st) in Hm by (by rewrite Hr).
    split; [exact Hst|]. split; [by rewrite Hr|]. split; [by rewrite Hr|].
    split; [done|]. split; [done|]. split; [exact Hm|].
    etrans; [exact (f_equal (count_status st) Hm)|].
    rewrite count_status_insert. by rewrite bool_decide_eq_true_2.
  - cbv zeta. rewrite manual_mark_run, Hins. cbn [fst snd attendance workers].
    set (r := manual_mark_record env data (clock w)).
    split; [done|]. split; [done|]. split; [done|]. split.
    + intros d Hdate.
      rewrite (get_stats_run env _ _ Hsel Hwk). cbv zeta.
      rewrite lookup_singleton_eq. cbn [default workers].
      fold (logs_of d (mkWorld (workers w) (attendance w ++ [r]) (bucket w) (S (clock w)))).
      fold (logs_of d w).
      pose proof (new_row_latest w r d (workers w) (bucket w) (S (clock w))
                    Hahead Hdate eq_refl) as Hm.
      split; [done|]. split; [exact Hm|].
      intros v. etrans; [exact (f_equal (count_status v) Hm)|].
      apply count_status_insert.
    + intros d Hdate.
      rewrite !(get_stats_run env _ _ Hsel Hwk). cbv zeta.
      rewrite lookup_singleton_eq. cbn [default workers fst].
      fold (logs_of d (mkWorld (workers w) (attendance w ++ [r]) (bucket w) (S (clock w)))).
      fold (logs_of d w).
      by rewrite (logs_of_other_date d w r) by exact Hdate.
Qed.

Lemma unregistered_worker_is_recorded_witness :
  let env := env_reply "PPE_OK" in
  let w' := (manual_mark env (mark_request "9999" "ABSENT") world_one_worker).2 in
  (manual_mark env (mark_request "9999" "ABSENT") world_one_worker).1
    = mkResponse [("status", JStr "SUCCESS")] 200 /\
  get_stats env {[ "date" := "2026-01-01" ]} w' =
    (mkResponse [("present", JNum 0); ("absent", JNum 1);
                 ("total_workers", JNum 1); ("date", JStr "2026-01-01")] 200, w').
Proof.
  cbv zeta.
  destruct (proj2 (unregistered_worker_is_recorded (env_reply "PPE_OK")
                     (mark_request "9999" "ABSENT") world_one_worker
                     (List.Forall_nil _) eq_refl eq_refl eq_refl))
    as (Hanswer & _ & _ & Hstats & _).
  split; [exact Hanswer|].
  destruct (Hstats "2026-01-01" eq_refl) as (Hget & _ & _).
  rewrite Hget. vm_compute. reflexivity.
Defined.

(** ** C8: requests without a required field *)

(** C8 (as amended): [precheck] answers 400 to an absent or empty worker_id
    and [add_worker] answers 400 to an absent or empty name, both before
    any store is touched.  The handlers that write attendance do not check
    worker_id: with the field absent, [manual_mark] (its insert succeeding)
    answers SUCCESS and appends a record without worker id, and [verify]
    (frame decoded, conclusive reply, upload, removal and insert
    succeeding) appends its record without worker id; an absent image makes
    [verify] answer with the error response, code 500, and write nothing. *)
Theorem required_field_checks (env : Env) (data : Request) (w : World) :
  (falsy (get data "worker_id") = true ->
   precheck env data w =
     (mkResponse [("status", JStr "ERROR"); ("message", JStr "Worker ID required")] 400,
      w)) /\
  (falsy (get data "name") = true ->
   add_worker env data w = (mkResponse [("error", JStr "Name is required")] 400, w)) /\
  (get data "worker_id" = None ->
   attendance_insert_fault env = None ->
   manual_mark env data w =
     (mkResponse [("status", JStr "SUCCESS")] 200,
      mkWorld (workers w)
        (attendance w ++ [mkAttendance None (get_default data "status" "PRESENT")
                            "ADMIN_OVERRIDE"
                            ("Marked " +:+ str (get_default data "status" "PRESENT")
                             +:+ " by Admin") None
                            (get_default data "date" (today env)) (clock w)])
        (bucket w) (S (clock w)))) /\
  (get data "worker_id" = None ->
   forall raw image_bytes,
     split_comma_1 (get data "image") = Ok raw ->
     Base64.b64decode raw = Ok image_bytes ->
     Py.contains "NO_WORKER" (verify_ppe_with_gemini env raw) = false ->
     upload_fault env = None ->
     remove_fault env = None ->
     attendance_insert_fault env = None ->
     exists r, attendance (verify env data w).2 = attendance w ++ [r]
               /\ worker_id r = None) /\
  (get data "image" = None ->
   verify env data w =
     (mkResponse [("status", JStr "ERROR");
                  ("message", JStr "'NoneType' object has no attribute 'split'")] 500,
      w)).
Proof.
  repeat split.
  - intros Hf. unfold precheck. rewrite Hf. reflexivity.
  - intros Hf. unfold add_worker. rewrite Hf. reflexivity.
  - intros Hwid Hins. rewrite manual_mark_run, Hins.
    unfold manual_mark_record. rewrite Hwid. reflexivity.
  - intros Hwid raw image_bytes Hs Hd Hconcl Hup Hrm Hins.
    rewrite (verify_run env data w raw image_bytes Hs Hd Hup Hrm).
    cbv zeta. rewrite Hconcl, Hins, Hwid.
    eexists. split.
    + destruct (workers_select_fault env); reflexivity.
    + unfold verify_record. destruct (Py.contains "PPE_OK" _); reflexivity.
  - intros Himg.
    apply (verify_decode_fails env data w
             (AttributeError "'NoneType' object has no attribute 'split'")).
    unfold decode_image. rewrite Himg. reflexivity.
Qed.

Lemma required_field_checks_witness :
  precheck (env_reply "PPE_OK") ∅ world_one_worker =
    (mkResponse [("status", JStr "ERROR"); ("message", JStr "Worker ID required")] 400,
     world_one_worker) /\
  add_worker (env_reply "PPE_OK") {[ "name" := Some "" ]} world_one_worker =
    (mkResponse [("error", JStr "Name is required")] 400, world_one_worker) /\
  manual_mark (env_reply "PPE_OK") ∅ world_one_worker =
    (mkResponse [("status", JStr "SUCCESS")] 200,
     mkWorld [mkWorker "1001" "Ann"]
       [mkAttendance None (Some "PRESENT") "ADMIN_OVERRIDE" "Marked PRESENT by Admin"
          None (Some "2026-01-01") 0] [] 1).
Proof.
  split; [|split].
  - exact (proj1 (required_field_checks (env_reply "PPE_OK") ∅ world_one_worker) eq_refl).
  - exact (proj1 (proj2 (required_field_checks (env_reply "PPE_OK")
                           {[ "name" := Some "" ]} world_one_worker)) eq_refl).
  - exact (proj1 (proj2 (proj2 (required_field_checks (env_reply "PPE_OK") ∅
                                  world_one_worker))) eq_refl eq_refl).
Defined.

(** C8 (as stated) fails: [manual_mark] on a request without worker_id
    answers 200, not 400, and writes a row. *)
Lemma manual_mark_accepts_missing_worker_id :
  get (∅ : Request) "worker_id" = None /\
  http (manual_mark (env_reply "PPE_OK") ∅ world_one_worker).1 = 200%nat /\
  http (manual_mark (env_reply "PPE_OK") ∅ world_one_worker).1 <> 400%nat /\
  attendance (manual_mark (env_reply "PPE_OK") ∅ world_one_worker).2 =
    [mkAttendance None (Some "PRESENT") "ADMIN_OVERRIDE" "Marked PRESENT by Admin"
       None (Some "2026-01-01") 0] /\
  attendance (manual_mark (env_reply "PPE_OK") ∅ world_one_worker).2
  <> attendance world_one_worker.
Proof.
  split; [reflexivity|]. split; [reflexivity|]. split; [vm_compute; discriminate|].
  split; [reflexivity|]. vm_compute; discriminate.
Qed.

(** ** C7: decoding the frame *)

Lemma append_empty_r (s : string) : s +:+ "" = s.
Proof.
  induction s as [|c r IH]; [done|].
  change (String c r +:+ "") with (String c (r +:+ "")). by rewrite IH.
Qed.

Lemma contains_comma_cons c r :
  Py.contains comma (String c r) = if Ascii.eqb c "," then true else Py.contains comma r.
Proof.
  change (Py.contains comma (String c r))
    with (if (if Ascii.eqb "," c then true else false) then true
          else Py.contains comma r).
  rewrite (Ascii.eqb_sym "," c). by destruct (Ascii.eqb c ",").
Qed.

Lemma split_cons c r :
  Py.split "," (String c r) =
    if Ascii.eqb c "," then "" :: Py.split "," r
    else match Py.split "," r with
         | field :: fields => String c field :: fields
         | [] => [String c ""]
         end.
Proof. reflexivity. Qed.

Lemma after_first_comma_cons c r :
  after_first_comma (String c r) = if Ascii.eqb c "," then Some r else after_first_comma r.
Proof. reflexivity. Qed.

Lemma split_no_comma s :
  Py.contains comma s = false -> Py.split "," s = [s].
Proof.
  induction s as [|c r IH]; [done|].
  rewrite contains_comma_cons, split_cons.
  destruct (Ascii.eqb c ","); [done|]. intros H. by rewrite (IH H).
Qed.

Lemma split_at_comma pre rest :
  Py.contains comma pre = false ->
  Py.split "," (pre +:+ String "," rest) = pre :: Py.split "," rest.
Proof.
  induction pre as [|c r IH]; [done|].
  rewrite contains_comma_cons.
  change (String c r +:+ String "," rest) with (String c (r +:+ String "," rest)).
  rewrite split_cons.
  destruct (Ascii.eqb c ","); [done|]. intros H. by rewrite (IH H).
Qed.

Lemma find_comma s :
  Py.contains comma s = true ->
  exists pre rest, s = pre +:+ String "," rest /\ Py.contains comma pre = false.
Proof.
  induction s as [|c r IH]; [done|].
  rewrite contains_comma_cons.
  destruct (Ascii.eqb c ",") eqn:E.
  - apply Ascii.eqb_eq in E as ->. intros _. by exists "", r.
  - intros H. destruct (IH H) as (pre & rest & -> & Hpre).
    exists (String c pre), rest. split; [done|].
    by rewrite contains_comma_cons, E.
Qed.

Lemma after_first_comma_at pre rest :
  Py.contains comma pre = false ->
  after_first_comma (pre +:+ String "," rest) = Some rest.
Proof.
  induction pre as [|c r IH]; [done|].
  rewrite contains_comma_cons.
  change (String c r +:+ String "," rest) with (String c (r +:+ String "," rest)).
  rewrite after_first_comma_cons.
  destruct (Ascii.eqb c ","); [done|]. exact IH.
Qed.

(** The second field of a text: what lies between its first comma and the
    next one, or the end. *)
Lemma split_comma_1_field s raw :
  split_comma_1 (Some s) = Ok raw <->
  exists pre post,
    s = pre +:+ String "," (raw +:+ post) /\
    Py.contains comma pre = false /\
    Py.contains comma raw = false /\
    (post = "" \/ Py.startswith comma post = true).
Proof.
  unfold split_comma_1. split.
  - destruct (Py.contains comma s) eqn:Hc.
    + destruct (find_comma s Hc) as (pre & rest & -> & Hpre).
      rewrite (split_at_comma pre rest Hpre). cbn [lookup list_lookup].
      destruct (Py.contains comma rest) eqn:Hr.
      * destruct (find_comma rest Hr) as (raw' & post & -> & Hraw).
        rewrite (split_at_comma raw' post Hraw). cbn. intros [= <-].
        exists pre, (String "," post). repeat split; try done. by right.
      * rewrite (split_no_comma rest Hr). cbn. intros [= <-].
        exists pre, "". repeat split; try done.
        { by rewrite append_empty_r. } by left.
    + rewrite (split_no_comma s Hc). cbn. discriminate.
  - intros (pre & post & -> & Hpre & Hraw & Hpost).
    rewrite (split_at_comma pre _ Hpre). cbn [lookup list_lookup].
    destruct Hpost as [->|Hpost].
    + rewrite append_empty_r, (split_no_comma raw Hraw). reflexivity.
    + destruct post as [|c post]; [done|].
      change (Py.startswith comma (String c post))
        with (if Ascii.eqb "," c then true else false) in Hpost.
      destruct (Ascii.eqb "," c) eqn:E; [|done]. apply Ascii.eqb_eq in E as <-.
      rewrite (split_at_comma raw post Hraw). reflexivity.
Qed.

Lemma a2b_loop_skips c r q l p out :
  Ascii.eqb c "=" = false -> Base64.table_a2b c = None ->
  Base64.a2b_loop (String c r) q l p out = Base64.a2b_loop r q l p out.
Proof. intros H1 H2. cbn [Base64.a2b_loop]. by rewrite H1, H2. Qed.

Lemma a2b_loop_alphabet s : forall q l p out,
  (q < 4)%nat -> alphabet_only s = true ->
  (exists bs, Base64.a2b_loop s q l p out = Ok bs) <-> ((q + String.length s) mod 4 = 0)%nat.
Proof.
  induction s as [|c r IH]; intros q l p out Hq Ha.
  - cbn [Base64.a2b_loop String.length]. rewrite Nat.add_0_r.
    destruct q as [|[|[|[|q]]]]; try lia; cbn; split; try (intros [? [=]]); try lia; eauto; discriminate.
  - cbn [alphabet_only] in Ha. apply andb_true_iff in Ha as [Ha Hr].
    apply andb_true_iff in Ha as [He Ht]. apply negb_true_iff in He.
    apply bool_decide_eq_true in Ht as [v Hv].
    cbn [Base64.a2b_loop String.length]. rewrite He, Hv.
    destruct q as [|[|[|[|q]]]]; try lia.
    + rewrite IH by (done || lia). replace (0 + S (String.length r))%nat with (1 + String.length r)%nat by lia. done.
    + rewrite IH by (done || lia). replace (1 + S (String.length r))%nat with (2 + String.length r)%nat by lia. done.
    + rewrite IH by (done || lia). replace (2 + S (String.length r))%nat with (3 + String.length r)%nat by lia. done.
    + rewrite IH by (done || lia).
      replace (3 + S (String.length r))%nat with (0 + String.length r + 1 * 4)%nat by lia.
      by rewrite Nat.Div0.mod_add.
Qed.

Lemma table_a2b_ascii c :
  is_Some (Base64.table_a2b c) -> (N_of_ascii c <? 128)%N = true.
Proof.
  unfold Base64.table_a2b. intros [v Hv]. apply N.ltb_lt.
  repeat match type of Hv with
         | (if ?b then _ else _) = _ => destruct b eqn:?
         end; try discriminate; lia.
Qed.

Lemma alphabet_only_is_ascii s : alphabet_only s = true -> Base64.is_ascii s = true.
Proof.
  induction s as [|c r IH]; [done|].
  cbn [alphabet_only Base64.is_ascii]. intros Ha.
  apply andb_true_iff in Ha as [Ha Hr]. apply andb_true_iff in Ha as [_ Ht].
  apply bool_decide_eq_true in Ht.
  by rewrite (table_a2b_ascii c Ht), (IH Hr).
Qed.

Lemma b64decode_alphabet s :
  alphabet_only s = true ->
  (exists bs, Base64.b64decode s = Ok bs) <-> (String.length s mod 4 = 0)%nat.
Proof.
  intros Ha. unfold Base64.b64decode. rewrite (alphabet_only_is_ascii s Ha).
  rewrite <- (a2b_loop_alphabet s 0 0 0 [] ltac:(lia) Ha).
  destruct (Base64.a2b_loop s 0 0 0 []) as [out|e]; split; intros [bs [=]]; eauto.
Qed.

Lemma is_data_pad : is_data "=" = false.
Proof. reflexivity. Qed.

Lemma is_data_spec c : is_data c = true <-> is_Some (Base64.table_a2b c).
Proof. unfold is_data. apply bool_decide_eq_true. Qed.

Lemma is_data_false c : is_data c = false <-> Base64.table_a2b c = None.
Proof.
  unfold is_data. rewrite bool_decide_eq_false, <- eq_None_not_Some. done.
Qed.

(** The decoder reads a text as it reads the characters it keeps of it. *)
Lemma a2b_loop_kept s : forall q l p out,
  Base64.a2b_loop s q l p out = Base64.a2b_loop (kept s) q l p out.
Proof.
  induction s as [|c r IH]; intros q l p out; [done|].
  cbn [kept]. destruct (Ascii.eqb c "=") eqn:He; cbn [orb].
  - cbn [Base64.a2b_loop]. rewrite He.
    destruct ((2 <=? q)%nat && (4 <=? q + S p)%nat); [done|]. apply IH.
  - destruct (is_data c) eqn:Hd.
    + apply is_data_spec in Hd as [v Hv].
      cbn [Base64.a2b_loop]. rewrite He, Hv.
      destruct q as [|[|[|q]]]; apply IH.
    + apply is_data_false in Hd.
      rewrite (a2b_loop_skips c r q l p out He Hd). apply IH.
Qed.

Lemma kept_is_ascii s : Base64.is_ascii (kept s) = true.
Proof.
  induction s as [|c r IH]; [done|]. cbn [kept].
  destruct (Ascii.eqb c "=") eqn:He; cbn [orb].
  - apply Ascii.eqb_eq in He as ->. cbn [Base64.is_ascii]. by rewrite IH.
  - destruct (is_data c) eqn:Hd; [|exact IH].
    cbn [Base64.is_ascii]. apply is_data_spec in Hd.
    by rewrite (table_a2b_ascii c Hd), IH.
Qed.

Lemma b64decode_kept s :
  Base64.is_ascii s = true -> Base64.b64decode s = Base64.b64decode (kept s).
Proof.
  intros Hs. unfold Base64.b64decode.
  by rewrite Hs, kept_is_ascii, <- a2b_loop_kept.
Qed.

Lemma data_count_kept s : data_count (kept s) = data_count s.
Proof.
  induction s as [|c r IH]; [done|]. cbn [kept data_count].
  destruct (Ascii.eqb c "=") eqn:He; cbn [orb].
  - cbn [data_count]. by rewrite IH.
  - destruct (is_data c) eqn:Hd; cbn [data_count]; rewrite ?Hd; by rewrite IH.
Qed.

Lemma data_count_alphabet s : alphabet_only s = true -> data_count s = String.length s.
Proof.
  induction s as [|c r IH]; [done|].
  cbn [alphabet_only data_count String.length]. intros Ha.
  apply andb_true_iff in Ha as [Ha Hr]. apply andb_true_iff in Ha as [_ Ht].
  unfold is_data. rewrite Ht. by rewrite (IH Hr).
Qed.

Lemma pad_after_nil c pat k q : ~ pad_after (String c pat) k q "".
Proof. intros (a & rest & H & _). by destruct a. Qed.

Lemma pad_after_data c r pat k q :
  is_data c = true ->
  pad_after (String "=" pat) k q (String c r) <-> pad_after (String "=" pat) k (S q) r.
Proof.
  intros Hc. split.
  - intros (a & rest & Ht & Hk). destruct a as [|c' a].
    + cbn in Ht. injection Ht as -> _. by rewrite is_data_pad in Hc.
    + change (String c' a +:+ String "=" pat +:+ rest)
        with (String c' (a +:+ String "=" pat +:+ rest)) in Ht.
      injection Ht as <- ->. exists a, rest. split; [done|].
      cbn [data_count] in Hk. rewrite Hc in Hk.
      by replace (S q + data_count a)%nat with (q + S (data_count a))%nat by lia.
  - intros (a & rest & -> & Hk). exists (String c a), rest. split; [done|].
    cbn [data_count]. rewrite Hc.
    by replace (q + S (data_count a))%nat with (S q + data_count a)%nat by lia.
Qed.

Lemma pad_after_pad r pat k q :
  pad_after (String "=" pat) k q (String "=" r) <->
  ((q mod 4 = k)%nat /\ exists rest, r = pat +:+ rest)
  \/ pad_after (String "=" pat) k q r.
Proof.
  split.
  - intros (a & rest & Ht & Hk). destruct a as [|c' a].
    + left. cbn in Ht. injection Ht as ->. cbn [data_count] in Hk.
      rewrite Nat.add_0_r in Hk. split; [done|]. by exists rest.
    + right.
      change (String c' a +:+ String "=" pat +:+ rest)
        with (String c' (a +:+ String "=" pat +:+ rest)) in Ht.
      injection Ht as <- ->. exists a, rest. split; [done|].
      cbn [data_count] in Hk. by rewrite is_data_pad in Hk.
  - intros [[Hk [rest ->]]|(a & rest & -> & Hk)].
    + exists "", rest. split; [done|]. cbn [data_count]. by rewrite Nat.add_0_r.
    + exists (String "=" a), rest. split; [done|].
      cbn [data_count]. by rewrite is_data_pad.
Qed.

Lemma pad_after_wrap pat k q t : pad_after pat k (q + 4) t <-> pad_after pat k q t.
Proof.
  unfold pad_after. split; intros (a & rest & Ht & Hk); exists a, rest;
    (split; [done|]);
    replace (q + 4 + data_count a)%nat with (q + data_count a + 1 * 4)%nat in * by lia;
    by rewrite Nat.Div0.mod_add in *.
Qed.

Lemma pad_after_wrap0 pat k t : pad_after pat k 4 t <-> pad_after pat k 0 t.
Proof. exact (pad_after_wrap pat k 0 t). Qed.

(** When the decoder succeeds, for every state it can be in: the characters
    still to read complete the quads, or they hold a pad that ends the
    input. *)
Lemma a2b_loop_ok s : forall q l p out,
  (q < 4)%nat -> ((q < 2)%nat -> p = O) ->
  (exists bs, Base64.a2b_loop s q l p out = Ok bs) <->
  ((q + data_count (kept s)) mod 4 = 0)%nat
  \/ pad_after "=" 3 q (kept s)
  \/ pad_after "==" 2 q (kept s)
  \/ (q = 2%nat /\ (1 <= p)%nat /\ exists rest, kept s = String "=" rest).
Proof.
  induction s as [|c r IH]; intros q l p out Hq Hp.
  - cbn [kept data_count Base64.a2b_loop]. rewrite Nat.add_0_r. split.
    + intros [bs Hbs]. left. destruct q as [|[|q]]; [done|discriminate..].
    + intros [H|[H|[H|(_ & _ & rest & H)]]].
      * rewrite Nat.mod_small in H by done. subst q. eauto.
      * by apply pad_after_nil in H.
      * by apply pad_after_nil in H.
      * discriminate.
  - cbn [kept]. destruct (Ascii.eqb c "=") eqn:He; cbn [orb].
    + apply Ascii.eqb_eq in He as ->.
      cbn [Base64.a2b_loop]. change (Ascii.eqb "=" "=") with true. cbv iota.
      cbn [data_count]. rewrite is_data_pad.
      rewrite !pad_after_pad.
      destruct q as [|[|[|[|q]]]]; [..|lia].
      * change ((2 <=? 0)%nat && (4 <=? 0 + S p)%nat) with false. cbv iota.
        rewrite (IH 0%nat l p out Hq Hp).
        change (0 mod 4)%nat with 0%nat. intuition (try lia || discriminate).
      * change ((2 <=? 1)%nat && (4 <=? 1 + S p)%nat) with false. cbv iota.
        change (if (2 <=? 1)%nat then S p else p) with p.
        rewrite (IH 1%nat l p out Hq Hp).
        change (1 mod 4)%nat with 1%nat. intuition (try lia || discriminate).
      * change (2 mod 4)%nat with 2%nat.
        destruct p as [|p].
        -- change ((2 <=? 2)%nat && (4 <=? 2 + 1)%nat) with false. cbv iota.
           change (if (2 <=? 2)%nat then 1%nat else 0%nat) with 1%nat.
           rewrite (IH 2%nat l 1%nat out Hq ltac:(lia)).
           split.
           ++ intros [H|[H|[H|(_ & _ & rest & H)]]]; [tauto..|].
              right; right; left; left. split; [done|]. by exists rest.
           ++ intros [H|[[[? _]|H]|[[[_ [rest H]]|H]|(_ & ? & _)]]]; try lia; try tauto.
              right; right; right. split; [done|]. split; [lia|]. by exists rest.
        -- assert (Hc : (2 <=? 2)%nat && (4 <=? 2 + S (S p))%nat = true).
           { apply andb_true_iff. split; [done|]. apply Nat.leb_le. lia. }
           rewrite Hc. split; [|by eauto].
           intros _. right; right; right. split; [done|]. split; [lia|]. by exists (kept r).
      * assert (Hc : (2 <=? 3)%nat && (4 <=? 3 + S p)%nat = true).
        { apply andb_true_iff. split; [done|]. apply Nat.leb_le. lia. }
        rewrite Hc. split; [|by eauto].
        intros _. right; left; left. split; [done|]. by exists (kept r).
    + destruct (is_data c) eqn:Hd.
      * pose proof Hd as Hd'. apply is_data_spec in Hd' as [v Hv].
        cbn [Base64.a2b_loop data_count]. rewrite He, Hv, Hd.
        rewrite !(pad_after_data c (kept r)) by done.
        assert (Hhead : ~ exists rest, String c (kept r) = String "=" rest).
        { intros [rest [= -> _]]. discriminate He. }
        replace (q + S (data_count (kept r)))%nat
          with (S q + data_count (kept r))%nat by lia.
        destruct q as [|[|[|[|q]]]]; [..|lia].
        -- rewrite (IH 1%nat _ 0%nat _ ltac:(lia) ltac:(done)).
           intuition (try lia || discriminate).
        -- rewrite (IH 2%nat _ 0%nat _ ltac:(lia) ltac:(lia)).
           intuition (try lia || discriminate).
        -- rewrite (IH 3%nat _ 0%nat _ ltac:(lia) ltac:(lia)).
           intuition (try lia || discriminate).
        -- rewrite (IH 0%nat _ 0%nat _ ltac:(lia) ltac:(done)).
           rewrite !pad_after_wrap0.
           replace (4 + data_count (kept r))%nat
             with (0 + data_count (kept r) + 1 * 4)%nat by lia.
           rewrite Nat.Div0.mod_add.
           intuition (try lia || discriminate).
      * apply is_data_false in Hd.
        rewrite (a2b_loop_skips c r q l p out He Hd). by apply IH.
Qed.

(** When [b64decode] succeeds on a text. *)
Lemma b64decode_ok s :
  (exists bs, Base64.b64decode s = Ok bs) <->
  Base64.is_ascii s = true /\
  ((data_count s mod 4 = 0)%nat
   \/ pad_after "=" 3 0 (kept s)
   \/ pad_after "==" 2 0 (kept s)).
Proof.
  unfold Base64.b64decode. destruct (Base64.is_ascii s).
  - pose proof (a2b_loop_ok s 0 0 0 [] ltac:(lia) ltac:(done)) as Hloop.
    rewrite data_count_kept in Hloop. cbn [Nat.add] in Hloop.
    split.
    + intros [bs Hbs]. split; [done|].
      destruct (Base64.a2b_loop s 0 0 0 []) as [out|e]; [|discriminate].
      destruct (proj1 Hloop ltac:(eauto)) as [H|[H|[H|(? & _)]]]; try tauto. lia.
    + intros [_ H].
      destruct (proj2 Hloop) as [out Hout]; [tauto|]. rewrite Hout. eauto.
  - split; [intros [bs [=]]|intros [[=] _]].
Qed.

(** C7 (as amended): the frame text is split at every comma and its second
    field is decoded: the text between the first comma and the next one,
    or the end.  A null frame and a frame without comma fail.  The decoder
    skips the characters of the field that are neither of the base64
    alphabet nor the pad, wherever they stand, and it succeeds exactly
    when the field is ASCII and, among the characters it keeps, the number
    of alphabet characters is a multiple of four, or a pad follows a
    number of alphabet characters that is three modulo four, or two pads
    in a row follow a number that is two modulo four; so a field of
    alphabet characters only decodes exactly when its length is a multiple
    of four.  A field that is not ASCII fails.  When the decoding fails,
    [verify] and [manual_upload] answer with the error response, code 500,
    and leave the world as it was. *)
Theorem frame_decoding (env : Env) (data : Request) (w : World) :
  let image_data := get data "image" in
  (forall raw,
     split_comma_1 image_data = Ok raw <->
     exists s pre post,
       image_data = Some s /\
       s = pre +:+ String "," (raw +:+ post) /\
       Py.contains "," pre = false /\
       Py.contains "," raw = false /\
       (post = "" \/ Py.startswith "," post = true)) /\
  (forall raw, split_comma_1 image_data = Ok raw ->
               decode_image image_data = Base64.b64decode raw) /\
  (image_data = None \/ (exists s, image_data = Some s /\ Py.contains "," s = false) ->
   exists e, decode_image image_data = Raise e) /\
  (forall raw, split_comma_1 image_data = Ok raw -> alphabet_only raw = true ->
     (exists image_bytes, decode_image image_data = Ok image_bytes)
     <-> (String.length raw mod 4 = 0)%nat) /\
  (forall c raw, Ascii.eqb c "=" = false -> Base64.table_a2b c = None ->
     Base64.is_ascii (String c raw) = true ->
     Base64.b64decode (String c raw) = Base64.b64decode raw) /\
  (forall raw, Base64.is_ascii raw = true ->
     Base64.b64decode raw = Base64.b64decode (kept raw)) /\
  (forall raw, split_comma_1 image_data = Ok raw ->
     (exists image_bytes, decode_image image_data = Ok image_bytes)
     <-> Base64.is_ascii raw = true /\
         ((data_count raw mod 4 = 0)%nat
          \/ (exists a rest, kept raw = a +:+ "=" +:+ rest /\
                             (data_count a mod 4 = 3)%nat)
          \/ (exists a rest, kept raw = a +:+ "==" +:+ rest /\
                             (data_count a mod 4 = 2)%nat))) /\
  (forall raw, split_comma_1 image_data = Ok raw -> Base64.is_ascii raw = false ->
     decode_image image_data =
       Raise (ValueError "string argument should contain only ASCII characters")) /\
  (forall e, decode_image image_data = Raise e ->
     verify env data w =
       (mkResponse [("status", JStr "ERROR"); ("message", JStr (exn_str e))] 500, w) /\
     manual_upload env data w =
       (mkResponse [("status", JStr "ERROR"); ("message", JStr (exn_str e))] 500, w)).
Proof.
  intros image_data. repeat apply conj.
  - intros raw. destruct image_data as [s|] eqn:E.
    + rewrite split_comma_1_field. split.
      * intros (pre & post & H). exists s, pre, post. by split.
      * intros (s' & pre & post & [= <-] & H). by exists pre, post.
    + split; [discriminate|]. by intros (? & ? & ? & [=] & _).
  - intros raw Hs. unfold decode_image. by rewrite Hs.
  - intros [->|(s & -> & Hs)].
    + eexists. reflexivity.
    + unfold decode_image, split_comma_1.
      rewrite (split_no_comma s Hs). eexists. reflexivity.
  - intros raw Hs Ha. unfold decode_image. rewrite Hs. by apply b64decode_alphabet.
  - intros c raw He Ht Hascii. unfold Base64.b64decode. rewrite Hascii.
    cbn [Base64.is_ascii] in Hascii. apply andb_true_iff in Hascii as [_ ->].
    by rewrite (a2b_loop_skips c raw 0 0 0 [] He Ht).
  - intros raw. apply b64decode_kept.
  - intros raw Hs. unfold decode_image. rewrite Hs. apply b64decode_ok.
  - intros raw Hs Hascii. unfold decode_image, Base64.b64decode.
    by rewrite Hs, Hascii.
  - intros e He. split.
    + by apply verify_decode_fails.
    + by apply manual_upload_decode_fails.
Qed.

Lemma frame_decoding_witness :
  verify (env_reply "PPE_OK") (frame_request "1001" "data:image/jpeg;base64") world_one_worker =
  (mkResponse [("status", JStr "ERROR"); ("message", JStr "list index out of range")] 500,
   world_one_worker).
Proof.
  exact (proj1 (proj2 (proj2 (proj2 (proj2 (proj2 (proj2 (proj2 (proj2
    (frame_decoding (env_reply "PPE_OK")
       (frame_request "1001" "data:image/jpeg;base64") world_one_worker))))))))
    (IndexError "list index out of range") eq_refl)).
Defined.

(** C7 (as stated) fails: in this frame the text after the first comma is
    "QUJD,!!", which is not valid base64; the code decodes the field "QUJD"
    only, and [verify] records the worker instead of answering ERROR. *)
Lemma frame_with_second_comma_is_accepted :
  let image := "data:image/jpeg;base64,QUJD,!!" in
  after_first_comma image = Some "QUJD,!!" /\
  valid_base64 "QUJD,!!" = false /\
  split_comma_1 (Some image) = Ok "QUJD" /\
  decode_image (Some image) = Ok [Byte.x41; Byte.x42; Byte.x43] /\
  verify (env_reply "PPE_OK") (frame_request "1001" image) world_one_worker =
    (mkResponse [("status", JStr "PRESENT"); ("worker_name", JStr "Ann");
                 ("missing", JStr "")] 200,
     mkWorld [mkWorker "1001" "Ann"]
       [mkAttendance (Some "1001") (Some "PRESENT") "PASSED" "" None
          (Some "2026-01-01") 0] [] 1).
Proof. cbv zeta. repeat split; reflexivity. Qed.

(** ** C4: the id of a new worker *)

Lemma rstrip_c_no_space s : no_space_c s = true -> Py.rstrip_c s = s.
Proof.
  induction s as [|c r IH]; [done|].
  cbn [no_space_c Py.rstrip_c]. intros H. apply andb_true_iff in H as [Hc Hr].
  rewrite (IH Hr). apply negb_true_iff in Hc. rewrite Hc. by destruct r.
Qed.

Lemma strip_c_no_space s : no_space_c s = true -> Py.rstrip_c (Py.lstrip_c s) = s.
Proof.
  intros H.
  assert (Hl : Py.lstrip_c s = s).
  { destruct s as [|c r]; [done|]. cbn [no_space_c] in H. cbn [Py.lstrip_c].
    apply andb_true_iff in H as [Hc _]. apply negb_true_iff in Hc. by rewrite Hc. }
  rewrite Hl. by apply rstrip_c_no_space.
Qed.

Lemma uint_no_space_c d : no_space_c (NilEmpty.string_of_uint d) = true.
Proof. induction d; cbn [NilEmpty.string_of_uint no_space_c]; try done; by rewrite IHd. Qed.

Lemma uint_digits_of d prev :
  d <> Decimal.Nil \/ prev = true ->
  Py.digits_of prev (NilEmpty.string_of_uint d) = Some (NilEmpty.string_of_uint d).
Proof.
  revert prev. induction d; intros prev H; cbn [NilEmpty.string_of_uint Py.digits_of];
    try (change (Py.isdigit _) with true; cbv iota;
         rewrite IHd by (by right); reflexivity).
  destruct H as [H| ->]; done.
Qed.

Lemma uint_text_length d :
  String.length (NilEmpty.string_of_uint d) = Decimal.nb_digits d.
Proof. induction d; cbn [NilEmpty.string_of_uint String.length Decimal.nb_digits]; by rewrite ?IHd. Qed.

(** The text of a non-empty digit sequence within the limit is read back by
    [int], with or without a minus sign. *)
Lemma int_of_uint_text d :
  d <> Decimal.Nil ->
  Z.of_nat (Decimal.nb_digits d) <= Py.max_str_digits ->
  Py.int (NilEmpty.string_of_uint d) = Some (Z.of_uint d) /\
  Py.int (String "-" (NilEmpty.string_of_uint d)) = Some (- Z.of_uint d).
Proof.
  intros Hd Hlen.
  assert (Hlim : (Py.max_str_digits <? Z.of_nat (String.length (NilEmpty.string_of_uint d)))
                 = false).
  { apply Z.ltb_ge. by rewrite uint_text_length. }
  split.
  - unfold Py.int. rewrite strip_c_no_space by apply uint_no_space_c.
    assert (Hbody : match NilEmpty.string_of_uint d with
                    | String "-" r => (true, r)
                    | String "+" r => (false, r)
                    | _ => (false, NilEmpty.string_of_uint d)
                    end = (false, NilEmpty.string_of_uint d)) by (by destruct d).
    rewrite Hbody. rewrite (uint_digits_of d false) by (by left).
    cbn [mbind option_bind]. rewrite Hlim, NilEmpty.usu. reflexivity.
  - unfold Py.int.
    rewrite strip_c_no_space by (cbn [no_space_c]; by rewrite uint_no_space_c).
    cbv beta iota zeta. rewrite (uint_digits_of d false) by (by left).
    cbn [mbind option_bind]. rewrite Hlim, NilEmpty.usu. reflexivity.
Qed.

(** How the digits of a positive number bound its value. *)
Lemma of_uint_acc_bounds d : forall acc,
  Z.pos acc * 10 ^ Z.of_nat (Decimal.nb_digits d) <= Z.pos (Pos.of_uint_acc d acc)
  /\ Z.pos (Pos.of_uint_acc d acc) < (Z.pos acc + 1) * 10 ^ Z.of_nat (Decimal.nb_digits d).
Proof.
  induction d; intros acc; cbn [Pos.of_uint_acc Decimal.nb_digits];
    [rewrite Z.pow_0_r; lia|..];
    rewrite Nat2Z.inj_succ, Z.pow_succ_r by lia;
    match goal with
    | |- context [Pos.of_uint_acc d ?a] => destruct (IHd a) as [Hlo Hhi]
    end;
    assert (0 < 10 ^ Z.of_nat (Decimal.nb_digits d)) by (apply Z.pow_pos_nonneg; lia);
    nia.
Qed.

Lemma pos_digits_bounds p :
  10 ^ (Z.of_nat (Decimal.nb_digits (Pos.to_uint p)) - 1) <= Z.pos p
  /\ Z.pos p < 10 ^ Z.of_nat (Decimal.nb_digits (Pos.to_uint p)).
Proof.
  pose proof (DecimalPos.Unsigned.of_to p) as Hof.
  pose proof (DecimalPos.Unsigned.to_uint_nonzero p) as Hnz.
  pose proof (DecimalPos.Unsigned.to_uint_nonnil p) as Hnn.
  pose proof (DecimalPos.Unsigned.to_of (Pos.to_uint p)) as Hnorm.
  rewrite Hof in Hnorm. cbn [N.to_uint] in Hnorm.
  destruct (Pos.to_uint p) as [|d|d|d|d|d|d|d|d|d|d] eqn:E; [done|..].
  { exfalso.
    assert (Hd : d <> Decimal.Nil) by (intros ->; by apply Hnz).
    pose proof (DecimalFacts.nb_digits_unorm d Hd) as Hle.
    change (Decimal.unorm (Decimal.D0 d)) with (Decimal.unorm d) in Hnorm.
    rewrite <- Hnorm in Hle. cbn [Decimal.nb_digits] in Hle. lia. }
  all: cbn [Pos.of_uint] in Hof; injection Hof as Hof;
    cbn [Decimal.nb_digits]; rewrite Nat2Z.inj_succ, Z.pow_succ_r by lia;
    rewrite <- Hof;
    match goal with
    | |- context [Pos.of_uint_acc ?d' ?a] =>
        destruct (of_uint_acc_bounds d' a) as [Hlo Hhi];
        replace (Z.succ (Z.of_nat (Decimal.nb_digits d')) - 1)
          with (Z.of_nat (Decimal.nb_digits d')) by lia;
        assert (0 < 10 ^ Z.of_nat (Decimal.nb_digits d'))
          by (apply Z.pow_pos_nonneg; lia)
    end;
    nia.
Qed.

Lemma decimal_pos_length p :
  String.length (Py.decimal (Z.pos p)) = Decimal.nb_digits (Pos.to_uint p).
Proof.
  change (Py.decimal (Z.pos p)) with (NilZero.string_of_uint (Pos.to_uint p)).
  unfold NilZero.string_of_uint.
  pose proof (DecimalPos.Unsigned.to_uint_nonnil p).
  destruct (Pos.to_uint p) eqn:E; [done|..]; apply uint_text_length.
Qed.

Lemma decimal_abs_length (n : Z) :
  n <> 0 ->
  String.length (Py.decimal (Z.abs n)) = Decimal.nb_digits (Pos.to_uint (Z.to_pos (Z.abs n))).
Proof. destruct n as [|p|p]; [done|..]; intros _; apply decimal_pos_length. Qed.

(** [str] succeeds exactly below ten to the power of the limit. *)
Lemma str_int_ok (n : Z) :
  Z.abs n < 10 ^ Py.max_str_digits -> Py.str_int n = Ok (Py.decimal n).
Proof.
  intros Hn. unfold Py.str_int.
  destruct (decide (n = 0)) as [->|Hne]; [reflexivity|].
  rewrite decimal_abs_length by done.
  destruct (pos_digits_bounds (Z.to_pos (Z.abs n))) as [Hlo _].
  rewrite Z2Pos.id in Hlo by lia.
  assert (Hlen : Z.of_nat (Decimal.nb_digits (Pos.to_uint (Z.to_pos (Z.abs n))))
                 <= Py.max_str_digits).
  { destruct (Z.le_gt_cases
                (Z.of_nat (Decimal.nb_digits (Pos.to_uint (Z.to_pos (Z.abs n)))))
                Py.max_str_digits) as [H|H]; [done|]. exfalso.
    assert (10 ^ Py.max_str_digits
            <= 10 ^ (Z.of_nat (Decimal.nb_digits (Pos.to_uint (Z.to_pos (Z.abs n)))) - 1))
      by (apply Z.pow_le_mono_r; unfold Py.max_str_digits in *; lia).
    lia. }
  by rewrite (proj2 (Z.ltb_ge _ _) Hlen).
Qed.

Lemma str_int_raises (n : Z) :
  10 ^ Py.max_str_digits <= Z.abs n ->
  Py.str_int n = Raise (ValueError
    "Exceeds the limit (4300 digits) for integer string conversion; use sys.set_int_max_str_digits() to increase the limit").
Proof.
  intros Hn. unfold Py.str_int.
  assert (Hne : n <> 0).
  { intros ->. assert (0 < 10 ^ Py.max_str_digits) by (apply Z.pow_pos_nonneg; done).
    cbn [Z.abs] in Hn. lia. }
  rewrite decimal_abs_length by done.
  destruct (pos_digits_bounds (Z.to_pos (Z.abs n))) as [_ Hhi].
  rewrite Z2Pos.id in Hhi by lia.
  assert (Hlen : Py.max_str_digits
                 < Z.of_nat (Decimal.nb_digits (Pos.to_uint (Z.to_pos (Z.abs n))))).
  { destruct (Z.le_gt_cases
                (Z.of_nat (Decimal.nb_digits (Pos.to_uint (Z.to_pos (Z.abs n)))))
                Py.max_str_digits) as [H|H]; [|lia]. exfalso.
    assert (10 ^ Z.of_nat (Decimal.nb_digits (Pos.to_uint (Z.to_pos (Z.abs n))))
            <= 10 ^ Py.max_str_digits)
      by (apply Z.pow_le_mono_r; lia).
    lia. }
  by rewrite (proj2 (Z.ltb_lt _ _) Hlen).
Qed.

(** What [str] has written, [int] reads back. *)
Lemma int_str_int (n : Z) s : Py.str_int n = Ok s -> Py.int s = Some n.
Proof.
  unfold Py.str_int.
  destruct (Py.max_str_digits <? Z.of_nat (String.length (Py.decimal (Z.abs n)))) eqn:E;
    [discriminate|]. intros [= <-]. apply Z.ltb_ge in E.
  destruct n as [|p|p]; [reflexivity|..];
    rewrite decimal_abs_length in E by done;
    cbn [Z.abs Z.to_pos] in E;
    unfold Py.decimal; cbn [Z.to_int NilZero.string_of_int];
    pose proof (DecimalPos.Unsigned.to_uint_nonnil p) as Hnn;
    pose proof (DecimalPos.Unsigned.of_to p) as Hof;
    assert (Hstr : NilZero.string_of_uint (Pos.to_uint p)
                   = NilEmpty.string_of_uint (Pos.to_uint p))
      by (unfold NilZero.string_of_uint; by destruct (Pos.to_uint p));
    rewrite Hstr;
    destruct (int_of_uint_text (Pos.to_uint p) Hnn E) as [Hpos Hneg];
    [rewrite Hpos|rewrite Hneg]; unfold Z.of_uint; by rewrite Hof.
Qed.

Lemma of_uint_below d : Z.of_uint d < 10 ^ Z.of_nat (Decimal.nb_digits d).
Proof.
  unfold Z.of_uint.
  induction d; cbn [Pos.of_uint Decimal.nb_digits];
    [rewrite Z.pow_0_r; lia|..];
    rewrite Nat2Z.inj_succ, Z.pow_succ_r by lia;
    assert (0 < 10 ^ Z.of_nat (Decimal.nb_digits d)) by (apply Z.pow_pos_nonneg; lia);
    [lia|..];
    match goal with
    | |- context [Pos.of_uint_acc d ?a] => destruct (of_uint_acc_bounds d a) as [_ Hhi]
    end;
    cbn [Z.of_N]; nia.
Qed.

Lemma of_uint_nonneg d : 0 <= Z.of_uint d.
Proof. unfold Z.of_uint. lia. Qed.

(** Every integer [int] returns is below ten to the power of the limit. *)
Lemma int_bounded s n : Py.int s = Some n -> Z.abs n < 10 ^ Py.max_str_digits.
Proof.
  unfold Py.int.
  destruct (match Py.rstrip_c (Py.lstrip_c s) with
            | String "-" r => (true, r)
            | String "+" r => (false, r)
            | _ => (false, Py.rstrip_c (Py.lstrip_c s))
            end) as [neg body].
  destruct (Py.digits_of false body) as [ds|]; [|discriminate]. cbn [mbind option_bind].
  destruct (Py.max_str_digits <? Z.of_nat (String.length ds)) eqn:E; [discriminate|].
  apply Z.ltb_ge in E.
  destruct (NilEmpty.uint_of_string ds) as [d|] eqn:Hd; [|discriminate].
  cbn [mbind option_bind]. intros [= <-].
  apply NilEmpty.sus in Hd. rewrite <- Hd, uint_text_length in E.
  pose proof (of_uint_below d) as Hlt. pose proof (of_uint_nonneg d) as Hge.
  assert (10 ^ Z.of_nat (Decimal.nb_digits d) <= 10 ^ Py.max_str_digits)
    by (apply Z.pow_le_mono_r; lia).
  destruct neg; lia.
Qed.

Lemma add_worker_run (env : Env) (data : Request) (w : World) name :
  get data "name" = Some name -> name <> "" ->
  workers_select_fault env = None ->
  workers_insert_fault env = None ->
  add_worker env data w =
    match Py.str_int (next_worker_id w) with
    | Ok id =>
        (mkResponse [("status", JStr "ok"); ("worker_id", JStr id)] 200,
         mkWorld (workers w ++ [mkWorker id name]) (attendance w) (bucket w) (clock w))
    | Raise e => (mkResponse [("error", JStr (exn_str e))] 500, w)
    end.
Proof.
  intros Hname Hne Hsel Hins. unfold add_worker. rewrite Hname.
  cbn [falsy]. rewrite bool_decide_eq_false_2 by done.
  unfold try_except, bind, lift, workers_select_worker_id, workers_insert.
  rewrite Hsel, Hins, !external_ok. cbn [fst snd str].
  unfold next_worker_id.
  destruct (w_worker_id <$> workers w) as [|a l] eqn:E.
  - change (parsed_ids []) with (@nil Z). cbv iota.
    by destruct (Py.str_int 1001).
  - by destruct (Py.str_int _).
Qed.

Lemma foldl_max_spec r : forall x,
  foldl Z.max x r ∈ x :: r /\ forall y, y ∈ x :: r -> y <= foldl Z.max x r.
Proof.
  induction r as [|a r IH]; intros x; cbn [foldl].
  - split; [by left|]. intros y Hy. apply list_elem_of_singleton in Hy. lia.
  - destruct (IH (Z.max x a)) as [Hin Hub]. split.
    + apply elem_of_cons in Hin as [Hin|Hin].
      * rewrite Hin. destruct (Z.max_spec x a) as [[_ ->]|[_ ->]];
          [right; left|left]; done.
      * right; right; done.
    + intros y Hy.
      assert (Hm : Z.max x a <= foldl Z.max (Z.max x a) r) by (apply Hub; by left).
      apply elem_of_cons in Hy as [->|Hy]; [lia|].
      apply elem_of_cons in Hy as [->|Hy]; [lia|].
      apply Hub. by right.
Qed.

Lemma max_list_spec ids :
  ids <> [] -> max_list ids ∈ ids /\ forall y, y ∈ ids -> y <= max_list ids.
Proof. destruct ids as [|x r]; [done|]. intros _. apply foldl_max_spec. Qed.

Lemma max_list_snoc ids k :
  ids <> [] -> max_list (ids ++ [k]) = Z.max (max_list ids) k.
Proof.
  destruct ids as [|x r]; [done|]. intros _. cbn [max_list app].
  by rewrite foldl_app.
Qed.

Lemma next_worker_id_above (w : World) s n :
  s ∈ w_worker_id <$> workers w -> Py.int s = Some n -> n < next_worker_id w.
Proof.
  intros Hs Hn. unfold next_worker_id, parsed_ids.
  assert (Hin : n ∈ omap Py.int (w_worker_id <$> workers w)).
  { apply list_elem_of_omap. eauto. }
  destruct (omap Py.int (w_worker_id <$> workers w)) as [|x r] eqn:E.
  - by apply elem_of_nil in Hin.
  - destruct (max_list_spec (x :: r) ltac:(done)) as [_ Hub].
    specialize (Hub n Hin). lia.
Qed.

Lemma next_worker_id_low (w : World) : - 10 ^ Py.max_str_digits < next_worker_id w.
Proof.
  assert (0 < 10 ^ Py.max_str_digits) by (by apply Z.pow_pos_nonneg).
  unfold next_worker_id, parsed_ids.
  destruct (omap Py.int (w_worker_id <$> workers w)) as [|x r] eqn:E; [lia|].
  destruct (max_list_spec (x :: r) ltac:(done)) as [Hin _].
  rewrite <- E in Hin at 2. apply list_elem_of_omap in Hin as (s & _ & Hs).
  apply int_bounded in Hs. lia.
Qed.

Lemma next_worker_id_fresh (w : World) id :
  Py.str_int (next_worker_id w) = Ok id -> id ∉ w_worker_id <$> workers w.
Proof.
  intros Hid Hin.
  pose proof (next_worker_id_above w _ _ Hin (int_str_int _ _ Hid)). lia.
Qed.

Lemma next_worker_id_after (w : World) id name at' b c :
  Py.str_int (next_worker_id w) = Ok id ->
  next_worker_id (mkWorld (workers w ++ [mkWorker id name]) at' b c)
  = next_worker_id w + 1.
Proof.
  intros Hid. unfold next_worker_id at 1. cbn [workers].
  rewrite fmap_app. unfold parsed_ids. rewrite omap_app.
  cbn [fmap list_fmap omap list_omap w_worker_id].
  rewrite (int_str_int _ _ Hid). cbn [omap list_omap].
  unfold next_worker_id, parsed_ids.
  destruct (omap Py.int (w_worker_id <$> workers w)) as [|x r] eqn:El.
  - reflexivity.
  - pose proof (max_list_snoc (x :: r) (max_list (x :: r) + 1) ltac:(done)) as Hmax.
    cbn [app] in Hmax |- *. rewrite Hmax. lia.
Qed.

Lemma next_worker_id_same (w1 w2 : World) :
  workers w1 = workers w2 -> next_worker_id w1 = next_worker_id w2.
Proof. unfold next_worker_id. by intros ->. Qed.

Lemma ids_from_lookup n : forall k i,
  (i < n)%nat -> ids_from k n !! i = Some (k + Z.of_nat i).
Proof.
  induction n as [|n IH]; intros k i Hi; [lia|].
  destruct i as [|i]; cbn [ids_from lookup list_lookup].
  - f_equal. lia.
  - fold (@lookup _ _ _ (@list_lookup Z) i (ids_from (k + 1) n)).
    rewrite IH by lia. f_equal. lia.
Qed.

Lemma ids_from_length n : forall k, length (ids_from k n) = n.
Proof. induction n as [|n IH]; intros k; cbn; [done|]. by rewrite IH. Qed.

Lemma register_all_run (env : Env) (names : list string) : forall w,
  workers_select_fault env = None ->
  workers_insert_fault env = None ->
  Forall (fun name => name <> "") names ->
  next_worker_id w + Z.of_nat (length names) <= 10 ^ Py.max_str_digits ->
  (register_all env names w).1
    = registered <$> ids_from (next_worker_id w) (length names) /\
  workers (register_all env names w).2
    = workers w ++ zip_with (fun id name => mkWorker (Py.decimal id) name)
                     (ids_from (next_worker_id w) (length names)) names.
Proof.
  induction names as [|name rest IH]; intros w Hsel Hins Hnames Hfit.
  - cbn. by rewrite app_nil_r.
  - apply Forall_cons in Hnames as [Hname Hrest].
    cbn [register_all length ids_from]. cbn [length] in Hfit.
    rewrite (add_worker_run env _ w name)
      by (done || by unfold get; rewrite lookup_singleton_eq).
    pose proof (next_worker_id_low w) as Hlow.
    assert (Hid : Py.str_int (next_worker_id w) = Ok (Py.decimal (next_worker_id w)))
      by (apply str_int_ok; lia).
    rewrite Hid.
    set (w1 := mkWorld _ _ _ _).
    assert (Hnext : next_worker_id w1 = next_worker_id w + 1)
      by (by apply next_worker_id_after).
    destruct (IH w1 Hsel Hins Hrest ltac:(lia)) as [Hr Hw].
    destruct (register_all env rest w1) as [rs w2].
    cbn [fst snd] in *. rewrite Hnext in Hr, Hw. split.
    + cbn [fmap list_fmap]. by rewrite Hr.
    + rewrite Hw. unfold w1. cbn [workers zip_with]. by rewrite <- app_assoc.
Qed.

Lemma below_limit n : n <= 10 ^ 9 -> n < 10 ^ Py.max_str_digits.
Proof.
  intros H. apply Z.le_lt_trans with (10 ^ 9); [exact H|].
  apply Z.pow_lt_mono_r; unfold Py.max_str_digits; lia.
Qed.

(** The text of [k] nines and the integer it stands for. *)
Lemma nines_text k :
  NilEmpty.string_of_uint (Nat.iter k Decimal.D9 Decimal.Nil) = repeat_text k "9".
Proof.
  induction k as [|k IH]; [done|].
  rewrite Nat.iter_succ. cbn [NilEmpty.string_of_uint repeat_text].
  rewrite IH. reflexivity.
Qed.

Lemma nines_digits k : Decimal.nb_digits (Nat.iter k Decimal.D9 Decimal.Nil) = k.
Proof.
  induction k as [|k IH]; [done|].
  rewrite Nat.iter_succ. cbn [Decimal.nb_digits]. by rewrite IH.
Qed.

Lemma of_uint_acc_nines k : forall acc,
  Z.pos (Pos.of_uint_acc (Nat.iter k Decimal.D9 Decimal.Nil) acc)
  = (Z.pos acc + 1) * 10 ^ Z.of_nat k - 1.
Proof.
  induction k as [|k IH]; intros acc.
  - cbn [Nat.iter nat_rect Pos.of_uint_acc Z.of_nat]. rewrite Z.pow_0_r. lia.
  - rewrite Nat.iter_succ. cbn [Pos.of_uint_acc]. rewrite IH.
    rewrite Nat2Z.inj_succ, Z.pow_succ_r by lia.
    rewrite Pos2Z.inj_add, Pos2Z.inj_mul. ring.
Qed.

Lemma of_uint_nines k :
  Z.of_uint (Nat.iter k Decimal.D9 Decimal.Nil) = 10 ^ Z.of_nat k - 1.
Proof.
  destruct k as [|k]; [reflexivity|].
  rewrite Nat.iter_succ. unfold Z.of_uint. cbn [Pos.of_uint Z.of_N].
  rewrite of_uint_acc_nines, Nat2Z.inj_succ, Z.pow_succ_r by lia. lia.
Qed.

Lemma int_nines :
  Py.int (repeat_text 4300 "9") = Some (10 ^ Py.max_str_digits - 1).
Proof.
  rewrite <- nines_text.
  rewrite (proj1 (int_of_uint_text (Nat.iter 4300 Decimal.D9 Decimal.Nil)
                    ltac:(rewrite Nat.iter_succ; discriminate)
                    ltac:(rewrite nines_digits; reflexivity))).
  by rewrite of_uint_nines.
Qed.

(** C4 as stated fails at the digit limit of [str]: in a registry whose only
    id is 4300 nines the id parses as an integer, yet no id is assigned:
    [str(next_id)] raises, the handler answers 500 with the message of the
    exception, and nothing is inserted. *)
Lemma add_worker_at_digit_limit :
  omap Py.int (w_worker_id <$> workers world_nines) = [10 ^ Py.max_str_digits - 1] /\
  add_worker (env_reply "PPE_OK") (name_request "Dee") world_nines =
    (mkResponse
       [("error", JStr "Exceeds the limit (4300 digits) for integer string conversion; use sys.set_int_max_str_digits() to increase the limit")]
       500,
     world_nines).
Proof.
  assert (Hids : omap Py.int (w_worker_id <$> workers world_nines)
                 = [10 ^ Py.max_str_digits - 1]).
  { unfold world_nines. cbn [workers fmap list_fmap w_worker_id omap list_omap].
    by rewrite int_nines. }
  split; [exact Hids|].
  rewrite (add_worker_run _ _ _ "Dee") by (reflexivity || discriminate).
  assert (Hnext : next_worker_id world_nines = 10 ^ Py.max_str_digits).
  { unfold next_worker_id, parsed_ids. rewrite Hids. cbn [max_list foldl]. lia. }
  rewrite Hnext, str_int_raises by lia. reflexivity.
Qed.

(** C4 (amended): [add_worker] with a non-empty name (its two calls
    succeeding) reads the existing ids, keeps those [int] accepts and skips
    the others; [next_id] is their maximum plus one when some id was kept
    and 1001 when none was.  When [next_id] is below ten to the power 4300
    the row with its decimal text is appended and that text returned; at
    ten to the power 4300 [str] raises, the answer is 500 with the message
    of the exception and the registry is unchanged.  Consequently N
    registrations that start from an empty registry return the ids
    1001, 1002, ..., 1000+N in this order, as long as 1000+N is below that
    bound. *)
Theorem add_worker_assigns_next_id (env : Env) (w : World) :
  workers_select_fault env = None ->
  workers_insert_fault env = None ->
  (forall data name,
     get data "name" = Some name -> name <> "" ->
     let ids := omap Py.int (w_worker_id <$> workers w) in
     exists next_id,
       (ids = [] -> next_id = 1001) /\
       (ids <> [] -> next_id - 1 ∈ ids /\ forall id, id ∈ ids -> id <= next_id - 1) /\
       (next_id < 10 ^ Py.max_str_digits ->
        add_worker env data w =
          (mkResponse [("status", JStr "ok");
                       ("worker_id", JStr (Py.decimal next_id))] 200,
           mkWorld (workers w ++ [mkWorker (Py.decimal next_id) name])
             (attendance w) (bucket w) (clock w))) /\
       (10 ^ Py.max_str_digits <= next_id ->
        add_worker env data w =
          (mkResponse
             [("error", JStr "Exceeds the limit (4300 digits) for integer string conversion; use sys.set_int_max_str_digits() to increase the limit")]
             500,
           w))) /\
  (workers w = [] ->
   forall names, Forall (fun name => name <> "") names ->
     1000 + Z.of_nat (length names) < 10 ^ Py.max_str_digits ->
     length (register_all env names w).1 = length names /\
     (forall i, (i < length names)%nat ->
        (register_all env names w).1 !! i =
          Some (mkResponse [("status", JStr "ok");
                            ("worker_id", JStr (Py.decimal (1001 + Z.of_nat i)))] 200)) /\
     (forall i name, names !! i = Some name ->
        workers (register_all env names w).2 !! i =
          Some (mkWorker (Py.decimal (1001 + Z.of_nat i)) name))).
Proof.
  intros Hsel Hins. split.
  - intros data name Hname Hne ids. exists (next_worker_id w).
    pose proof (next_worker_id_low w) as Hlow.
    split; [|split; [|split]].
    + unfold next_worker_id, parsed_ids. fold ids. by intros ->.
    + unfold next_worker_id, parsed_ids. fold ids.
      intros Hids. destruct ids as [|x r] eqn:E; [done|].
      replace (max_list (x :: r) + 1 - 1) with (max_list (x :: r)) by lia.
      by apply max_list_spec.
    + intros Hfit. rewrite (add_worker_run env data w name Hname Hne Hsel Hins).
      by rewrite str_int_ok by lia.
    + intros Hover. rewrite (add_worker_run env data w name Hname Hne Hsel Hins).
      by rewrite str_int_raises by lia.
  - intros Hempty names Hnames Hfit.
    assert (Hnext : next_worker_id w = 1001).
    { unfold next_worker_id. by rewrite Hempty. }
    destruct (register_all_run env names w Hsel Hins Hnames ltac:(lia)) as [Hr Hw].
    rewrite Hnext in Hr, Hw. rewrite Hempty in Hw. cbn [app] in Hw.
    split; [|split].
    + by rewrite Hr, length_fmap, ids_from_length.
    + intros i Hi. rewrite Hr, list_lookup_fmap, ids_from_lookup by done. reflexivity.
    + intros i name Hi. rewrite Hw, lookup_zip_with.
      rewrite ids_from_lookup by (by eapply lookup_lt_Some).
      cbn [mbind option_bind]. by rewrite Hi.
Qed.

Lemma add_worker_assigns_next_id_witness :
  add_worker (env_reply "PPE_OK") (name_request "Dee") world_three_workers =
    (mkResponse [("status", JStr "ok"); ("worker_id", JStr "1006")] 200,
     mkWorld [mkWorker "1001" "Ann"; mkWorker "abc" "Bob"; mkWorker "1005" "Cy";
              mkWorker "1006" "Dee"] [] [] 0) /\
  (register_all (env_reply "PPE_OK") ["Ann"; "Bob"; "Cy"] (mkWorld [] [] [] 0)).1 !! 2%nat =
    Some (mkResponse [("status", JStr "ok"); ("worker_id", JStr "1003")] 200).
Proof.
  split.
  - destruct (proj1 (add_worker_assigns_next_id (env_reply "PPE_OK") world_three_workers
                       eq_refl eq_refl) (name_request "Dee") "Dee" eq_refl
                ltac:(discriminate)) as (next_id & _ & Hmax & Hrun & _).
    change (omap Py.int (w_worker_id <$> workers world_three_workers))
      with [1001; 1005] in Hmax.
    destruct (Hmax ltac:(discriminate)) as [Hin Hub].
    assert (Hle : 1005 <= next_id - 1) by (apply Hub; right; left).
    assert (Hid : next_id = 1006).
    { apply elem_of_cons in Hin as [Hin|Hin]; [lia|].
      apply list_elem_of_singleton in Hin. lia. }
    subst next_id. rewrite Hrun by (apply below_limit; lia). reflexivity.
  - refine (proj1 (proj2 (proj2 (add_worker_assigns_next_id (env_reply "PPE_OK")
              (mkWorld [] [] [] 0) eq_refl eq_refl) eq_refl ["Ann"; "Bob"; "Cy"] _ _))
              2%nat _).
    + repeat constructor; discriminate.
    + apply below_limit. cbn. lia.
    + cbn. lia.
Defined.

(** ** The ids of the registry *)

(** X1: when [add_worker] (non-empty name, both calls succeeding) answers
    ok, the id it returns is not the id of any row already in [workers],
    the row is appended, and a registry without repeated ids stays without
    repeated ids.  The only other answer is the 500 of the digit limit of
    [str], and then the registry is unchanged. *)
Theorem add_worker_id_is_fresh (env : Env) (data : Request) (w : World) name :
  get data "name" = Some name -> name <> "" ->
  workers_select_fault env = None ->
  workers_insert_fault env = None ->
  (forall id,
     (add_worker env data w).1 =
       mkResponse [("status", JStr "ok"); ("worker_id", JStr id)] 200 ->
     (id ∉ w_worker_id <$> workers w) /\
     workers (add_worker env data w).2 = workers w ++ [mkWorker id name] /\
     (NoDup (w_worker_id <$> workers w) ->
      NoDup (w_worker_id <$> workers (add_worker env data w).2))) /\
  ((exists id,
      (add_worker env data w).1 =
        mkResponse [("status", JStr "ok"); ("worker_id", JStr id)] 200) \/
   add_worker env data w =
     (mkResponse
        [("error", JStr "Exceeds the limit (4300 digits) for integer string conversion; use sys.set_int_max_str_digits() to increase the limit")]
        500,
      w)).
Proof.
  intros Hname Hne Hsel Hins.
  rewrite (add_worker_run env data w name Hname Hne Hsel Hins).
  destruct (Py.str_int (next_worker_id w)) as [id0|e] eqn:Hid.
  - cbn [fst snd workers]. split; [|left; by exists id0].
    intros id [= <-].
    split; [by apply next_worker_id_fresh|]. split; [reflexivity|].
    intros Hnd. rewrite fmap_app. apply NoDup_app. split; [done|].
    split; [|apply NoDup_singleton].
    intros x Hx Hx'. cbn in Hx'. apply list_elem_of_singleton in Hx' as ->.
    by apply (next_worker_id_fresh w id0).
  - cbn [fst snd]. split; [intros id; discriminate|]. right.
    destruct (Z_lt_le_dec (Z.abs (next_worker_id w)) (10 ^ Py.max_str_digits))
      as [Hlt|Hge].
    + rewrite str_int_ok in Hid by done. discriminate.
    + rewrite str_int_raises in Hid by done. by injection Hid as <-.
Qed.

Lemma add_worker_id_is_fresh_witness :
  ("1006" ∉ ["1001"; "abc"; "1005"]) /\
  workers (add_worker (env_reply "PPE_OK") (name_request "Dee") world_three_workers).2
  = workers world_three_workers ++ [mkWorker "1006" "Dee"].
Proof.
  destruct (proj1 (add_worker_id_is_fresh (env_reply "PPE_OK") (name_request "Dee")
              world_three_workers "Dee" eq_refl ltac:(discriminate) eq_refl eq_refl)
              "1006" eq_refl)
    as (Hfresh & Hrow & _).
  split; [exact Hfresh|exact Hrow].
Defined.

(** X2: registrations made one after the other (non-empty names, calls
    succeeding) return consecutive ids, whatever the registry holds at the
    start, as long as the ids stay within the digit limit of [str]: with
    [first] the id a single registration would get in the starting world
    and [first] plus the number of names at most ten to the power 4300,
    the i-th answer carries the decimal text of [first + i] and the i-th
    new row carries that id and the i-th name. *)
Theorem register_all_consecutive (env : Env) (names : list string) (w : World) :
  workers_select_fault env = None ->
  workers_insert_fault env = None ->
  Forall (fun name => name <> "") names ->
  let ids := omap Py.int (w_worker_id <$> workers w) in
  let first := match ids with [] => 1001 | _ => max_list ids + 1 end in
  first + Z.of_nat (length names) <= 10 ^ Py.max_str_digits ->
  forall i name, names !! i = Some name ->
    (register_all env names w).1 !! i =
      Some (mkResponse [("status", JStr "ok");
                        ("worker_id", JStr (Py.decimal (first + Z.of_nat i)))] 200) /\
    workers (register_all env names w).2 !! (length (workers w) + i)%nat =
      Some (mkWorker (Py.decimal (first + Z.of_nat i)) name).
Proof.
  intros Hsel Hins Hnames ids first Hfit i name Hi.
  assert (Hfirst : first = next_worker_id w).
  { unfold first, ids, next_worker_id, parsed_ids.
    by destruct (omap Py.int (w_worker_id <$> workers w)). }
  rewrite Hfirst in Hfit |- *. clear Hfirst first ids.
  destruct (register_all_run env names w Hsel Hins Hnames Hfit) as [Hr Hw].
  assert (Hlt : (i < length names)%nat) by (by eapply lookup_lt_Some).
  split.
  - rewrite Hr, list_lookup_fmap, ids_from_lookup by done. reflexivity.
  - rewrite Hw, lookup_app_r by lia.
    replace (length (workers w) + i - length (workers w))%nat with i by lia.
    rewrite lookup_zip_with, ids_from_lookup by done.
    cbn [mbind option_bind]. by rewrite Hi.
Qed.

Lemma register_all_consecutive_witness :
  (register_all (env_reply "PPE_OK") ["Dee"; "Eve"] world_three_workers).1 !! 1%nat =
    Some (mkResponse [("status", JStr "ok"); ("worker_id", JStr "1007")] 200).
Proof.
  refine (proj1 (register_all_consecutive (env_reply "PPE_OK") ["Dee"; "Eve"]
                   world_three_workers eq_refl eq_refl _ _ 1%nat "Eve" eq_refl)).
  - repeat constructor; discriminate.
  - apply Z.lt_le_incl, below_limit. vm_compute. discriminate.
Defined.

(** ** Looking a worker up *)

Lemma precheck_run (env : Env) (data : Request) (w : World) s :
  get data "worker_id" = Some s -> s <> "" ->
  workers_select_fault env = None ->
  precheck env data w =
    (match filter (fun x => w_worker_id x = s) (workers w) with
     | [] => mkResponse [("status", JStr "NOT_FOUND");
                         ("message", JStr "ID not registered")] 404
     | x :: _ => mkResponse [("status", JStr "SUCCESS");
                             ("worker_name", JStr (w_name x))] 200
     end, w).
Proof.
  intros Hid Hne Hsel. unfold precheck. rewrite Hid. cbn [falsy].
  rewrite bool_decide_eq_false_2 by done.
  unfold try_except, bind, workers_select_name. rewrite Hsel, external_ok.
  cbn [fst snd str].
  by destruct (filter (fun x => w_worker_id x = s) (workers w)).
Qed.

Lemma filter_nil_iff {A} (P : A -> Prop) `{!forall x, Decision (P x)} (l : list A) :
  filter P l = [] <-> forall x, x ∈ l -> ~ P x.
Proof.
  split.
  - intros Hnil x Hx HP.
    assert (Hin : x ∈ filter P l) by (by apply list_elem_of_filter).
    rewrite Hnil in Hin. by apply elem_of_nil in Hin.
  - intros Hall. apply filter_none. by apply Forall_forall.
Qed.

Lemma precheck_found (env : Env) (data : Request) (w : World) s :
  get data "worker_id" = Some s -> s <> "" ->
  workers_select_fault env = None ->
  (s ∈ w_worker_id <$> workers w) ->
  exists name,
    mkWorker s name ∈ workers w /\
    (precheck env data w).1 =
      mkResponse [("status", JStr "SUCCESS"); ("worker_name", JStr name)] 200.
Proof.
  intros Hid Hne Hsel Hin. rewrite (precheck_run env data w s Hid Hne Hsel). cbn [fst].
  apply list_elem_of_fmap in Hin as (x & -> & Hx).
  destruct (filter (fun y => w_worker_id y = w_worker_id x) (workers w))
    as [|y l] eqn:E.
  - exfalso. apply (proj1 (filter_nil_iff _ _) E x Hx). done.
  - assert (Hy : y ∈ filter (fun y => w_worker_id y = w_worker_id x) (workers w))
      by (rewrite E; left).
    apply list_elem_of_filter in Hy as [Hyid Hy].
    exists (w_name y). split; [|done].
    rewrite <- Hyid. by destruct y.
Qed.

Lemma precheck_not_found (env : Env) (data : Request) (w : World) s :
  get data "worker_id" = Some s -> s <> "" ->
  workers_select_fault env = None ->
  (s ∉ w_worker_id <$> workers w) ->
  (precheck env data w).1 =
    mkResponse [("status", JStr "NOT_FOUND"); ("message", JStr "ID not registered")] 404.
Proof.
  intros Hid Hne Hsel Hnot. rewrite (precheck_run env data w s Hid Hne Hsel). cbn [fst].
  rewrite (proj2 (filter_nil_iff (fun x => w_worker_id x = s) (workers w))); [done|].
  intros x Hx Hs. apply Hnot, list_elem_of_fmap. eauto.
Qed.

(** X3: [precheck] never changes the world, whatever fails; for a
    non-empty worker id (the lookup succeeding) it answers SUCCESS with the
    name of a row carrying that id when there is one, and NOT_FOUND with
    code 404 exactly when no row carries it. *)
Theorem precheck_reports_registration (env : Env) (data : Request) (w : World) :
  (precheck env data w).2 = w /\
  forall s,
    get data "worker_id" = Some s -> s <> "" ->
    workers_select_fault env = None ->
    (s ∈ (w_worker_id <$> workers w) ->
     exists name,
       mkWorker s name ∈ workers w /\
       (precheck env data w).1 =
         mkResponse [("status", JStr "SUCCESS"); ("worker_name", JStr name)] 200) /\
    ((s ∉ w_worker_id <$> workers w) ->
     (precheck env data w).1 =
       mkResponse [("status", JStr "NOT_FOUND");
                   ("message", JStr "ID not registered")] 404).
Proof.
  split.
  - unfold precheck. destruct (falsy (get data "worker_id")); [done|].
    unfold try_except, bind, workers_select_name, external.
    destruct (workers_select_fault env); [done|].
    cbn. by destruct (filter _ (workers w)).
  - intros s Hid Hne Hsel. split.
    + by apply precheck_found.
    + by apply precheck_not_found.
Qed.

Lemma precheck_reports_registration_witness :
  (precheck (env_reply "PPE_OK") {[ "worker_id" := Some "4242" ]} world_three_workers).1 =
    mkResponse [("status", JStr "NOT_FOUND"); ("message", JStr "ID not registered")] 404.
Proof.
  refine (proj2 (proj2 (precheck_reports_registration (env_reply "PPE_OK")
            {[ "worker_id" := Some "4242" ]} world_three_workers) "4242" eq_refl
            _ eq_refl) _).
  - discriminate.
  - intros Hin. repeat (apply elem_of_cons in Hin as [Hin|Hin]; [discriminate|]).
    by apply elem_of_nil in Hin.
Defined.

Lemma str_int_nonempty (n : Z) id : Py.str_int n = Ok id -> id <> "".
Proof. intros H ->. apply int_str_int in H. discriminate. Qed.

(** X4: a worker that [add_worker] has registered is found by [precheck]
    under the id that was returned, with the name that was given (all
    calls succeeding): whenever [add_worker] answers ok with an id,
    [precheck] of that id in the world it leaves answers SUCCESS with the
    name. *)
Theorem add_worker_then_precheck (env : Env) (data : Request) (w : World) name :
  get data "name" = Some name -> name <> "" ->
  workers_select_fault env = None ->
  workers_insert_fault env = None ->
  forall id,
    (add_worker env data w).1 =
      mkResponse [("status", JStr "ok"); ("worker_id", JStr id)] 200 ->
    precheck env {[ "worker_id" := Some id ]} (add_worker env data w).2 =
      (mkResponse [("status", JStr "SUCCESS"); ("worker_name", JStr name)] 200,
       (add_worker env data w).2).
Proof.
  intros Hname Hne Hsel Hins id.
  rewrite (add_worker_run env data w name Hname Hne Hsel Hins).
  destruct (Py.str_int (next_worker_id w)) as [id0|e] eqn:Hid;
    cbn [fst snd]; [|discriminate].
  intros [= <-].
  rewrite (precheck_run env _ _ id0)
    by (done || by eapply str_int_nonempty || by unfold get; rewrite lookup_singleton_eq).
  cbn [workers]. rewrite filter_app.
  rewrite (proj2 (filter_nil_iff _ (workers w))).
  - rewrite filter_cons, decide_True by done. reflexivity.
  - intros x Hx Hx'. apply (next_worker_id_fresh w id0 Hid), list_elem_of_fmap. eauto.
Qed.

Lemma add_worker_then_precheck_witness :
  precheck (env_reply "PPE_OK") {[ "worker_id" := Some "1006" ]}
    (add_worker (env_reply "PPE_OK") (name_request "Dee") world_three_workers).2 =
    (mkResponse [("status", JStr "SUCCESS"); ("worker_name", JStr "Dee")] 200,
     (add_worker (env_reply "PPE_OK") (name_request "Dee") world_three_workers).2).
Proof.
  exact (add_worker_then_precheck (env_reply "PPE_OK") (name_request "Dee")
           world_three_workers "Dee" eq_refl ltac:(discriminate) eq_refl eq_refl
           "1006" eq_refl).
Defined.

(** ** Removing a worker *)

Lemma delete_worker_run (faults : DeleteFaults) (id : string) (w : World) :
  delete_worker faults id w =
    match attendance_delete_fault faults with
    | Some msg => (mkResponse [("error", JStr msg)] 500, w)
    | None =>
        let logs := filter (fun r => worker_id r <> Some id) (attendance w) in
        match workers_delete_fault faults with
        | Some msg =>
            (mkResponse [("error", JStr msg)] 500,
             mkWorld (workers w) logs (bucket w) (clock w))
        | None =>
            (mkResponse [("status", JStr "ok")] 200,
             mkWorld (filter (fun x => w_worker_id x <> id) (workers w)) logs
               (bucket w) (clock w))
        end
    end.
Proof.
  unfold delete_worker, try_except, bind, attendance_delete, workers_delete, external.
  destruct (attendance_delete_fault faults), (workers_delete_fault faults); reflexivity.
Qed.

Lemma order_by_created_at_desc_perm l : order_by_created_at_desc l ≡ₚ l.
Proof.
  assert (Hins : forall r l, insert_by_created_at_desc r l ≡ₚ r :: l).
  { intros r l'. induction l' as [|x l' IH]; [reflexivity|]. simpl.
    destruct (created_at x <=? created_at r)%nat; [reflexivity|].
    rewrite IH. apply Permutation_swap. }
  induction l as [|x l IH]; [reflexivity|]. simpl. by rewrite Hins, IH.
Qed.

Lemma get_logs_run (env : Env) (args : gmap string string) (w : World) :
  attendance_select_fault env = None ->
  get_logs env args w =
    (Listed (log_row <$>
               order_by_created_at_desc
                 (if falsy (args !! "date") then attendance w
                  else filter (fun r => date r = args !! "date") (attendance w))), w).
Proof.
  intros Hsel. unfold get_logs, try_except, bind, attendance_select_logs.
  rewrite Hsel, external_ok. reflexivity.
Qed.

(** X5: when both deletions succeed, [delete_worker] answers ok and
    afterwards nothing of the worker is left: [precheck] answers NOT_FOUND
    for the id, [get_logs] lists no row of the id for any date filter and
    the per-worker map of [get_stats] has no entry for it on any date;
    every row of another worker id, in both tables, is still there and
    the bucket is untouched. *)
Theorem delete_worker_cascades (env : Env) (faults : DeleteFaults) (id : string) (w : World) :
  attendance_delete_fault faults = None ->
  workers_delete_fault faults = None ->
  id <> "" ->
  attendance_select_fault env = None ->
  workers_select_fault env = None ->
  let w' := (delete_worker faults id w).2 in
  (delete_worker faults id w).1 = mkResponse [("status", JStr "ok")] 200 /\
  precheck env {[ "worker_id" := Some id ]} w' =
    (mkResponse [("status", JStr "NOT_FOUND"); ("message", JStr "ID not registered")] 404,
     w') /\
  (forall args rows, (get_logs env args w').1 = Listed rows ->
     forall row, row ∈ rows -> log_worker_id row <> Some id) /\
  (forall d, latest_status_map
               (order_by_created_at (filter (fun r => date r = Some d) (attendance w')))
             !! Some id = None) /\
  (forall r, r ∈ attendance w' <-> r ∈ attendance w /\ worker_id r <> Some id) /\
  (forall x, x ∈ workers w' <-> x ∈ workers w /\ w_worker_id x <> id) /\
  bucket w' = bucket w.
Proof.
  intros Hda Hdw Hne Hsel Hwk w'. subst w'.
  rewrite delete_worker_run, Hda, Hdw. cbv zeta. cbn [fst snd].
  set (w' := mkWorld _ _ _ _).
  assert (Hat : forall r, r ∈ attendance w' <-> r ∈ attendance w /\ worker_id r <> Some id).
  { intros r. unfold w'. cbn [attendance]. rewrite list_elem_of_filter. tauto. }
  assert (Hws : forall x, x ∈ workers w' <-> x ∈ workers w /\ w_worker_id x <> id).
  { intros x. unfold w'. cbn [workers]. rewrite list_elem_of_filter. tauto. }
  split; [done|]. split; [|split; [|split; [|split; [done|split; done]]]].
  - rewrite (precheck_run env _ w' id)
      by (done || by unfold get; rewrite lookup_singleton_eq).
    rewrite (proj2 (filter_nil_iff (fun x => w_worker_id x = id) (workers w'))); [done|].
    intros x Hx Hid. apply Hws in Hx as [_ Hx]. done.
  - intros args rows. rewrite (get_logs_run env args w' Hsel). cbn [fst].
    intros [= <-] row Hrow.
    apply list_elem_of_fmap in Hrow as (r & -> & Hr).
    rewrite order_by_created_at_desc_perm in Hr.
    assert (Hin : r ∈ attendance w').
    { destruct (falsy (args !! "date")); [done|].
      by apply list_elem_of_filter in Hr as [_ Hr]. }
    apply Hat in Hin as [_ Hin]. done.
  - intros d. rewrite latest_status_map_lookup.
    destruct (latest_row _ (Some id)) as [r|] eqn:E; [|done]. exfalso.
    assert (Hs : is_Some (latest_row
                            (order_by_created_at
                               (filter (fun r => date r = Some d) (attendance w')))
                            (Some id))) by (by rewrite E).
    apply latest_row_is_Some, list_elem_of_fmap in Hs as (r' & Hid & Hr').
    rewrite order_by_created_at_perm in Hr'.
    apply list_elem_of_filter in Hr' as [_ Hr'].
    apply Hat in Hr' as [_ Hr']. done.
Qed.

Lemma delete_worker_cascades_witness :
  precheck (env_reply "PPE_OK") {[ "worker_id" := Some "1001" ]}
    (delete_worker deletes_succeed "1001" world_present_then_absent).2 =
  (mkResponse [("status", JStr "NOT_FOUND"); ("message", JStr "ID not registered")] 404,
   (delete_worker deletes_succeed "1001" world_present_then_absent).2).
Proof.
  exact (proj1 (proj2 (delete_worker_cascades (env_reply "PPE_OK") deletes_succeed
           "1001" world_present_then_absent eq_refl eq_refl ltac:(discriminate)
           eq_refl eq_refl))).
Defined.

(** X6: [delete_worker] is not atomic.  When the deletion from
    [attendance] raises, nothing changes.  When it succeeds and the
    deletion from [workers] raises, the handler answers with the error and
    code 500, the worker's attendance rows are gone, and the [workers] table
    is as before, so a registered worker is still found by [precheck]. *)
Theorem delete_worker_partial_failure
    (env : Env) (faults : DeleteFaults) (id : string) (w : World) :
  (forall msg, attendance_delete_fault faults = Some msg ->
     delete_worker faults id w = (mkResponse [("error", JStr msg)] 500, w)) /\
  (forall msg,
     attendance_delete_fault faults = None ->
     workers_delete_fault faults = Some msg ->
     let w' := (delete_worker faults id w).2 in
     (delete_worker faults id w).1 = mkResponse [("error", JStr msg)] 500 /\
     workers w' = workers w /\
     (forall r, r ∈ attendance w' -> worker_id r <> Some id) /\
     (id <> "" -> workers_select_fault env = None ->
      (id ∈ w_worker_id <$> workers w) ->
      exists name,
        (precheck env {[ "worker_id" := Some id ]} w').1 =
          mkResponse [("status", JStr "SUCCESS"); ("worker_name", JStr name)] 200)).
Proof.
  split.
  - intros msg Hda. by rewrite delete_worker_run, Hda.
  - intros msg Hda Hdw w'. subst w'. rewrite delete_worker_run, Hda, Hdw.
    cbv zeta. cbn [fst snd workers attendance].
    split; [done|]. split; [done|]. split.
    + intros r Hr. by apply list_elem_of_filter in Hr as [Hr _].
    + intros Hne Hsel Hin.
      set (w' := mkWorld _ _ _ _).
      destruct (precheck_found env {[ "worker_id" := Some id ]} w' id
                  ltac:(by unfold get; rewrite lookup_singleton_eq) Hne Hsel Hin)
        as (name & _ & Hresp).
      eauto.
Qed.

Lemma delete_worker_partial_failure_witness :
  (delete_worker workers_delete_down "1001" world_present_then_absent).1 =
    mkResponse [("error", JStr "timeout")] 500 /\
  workers (delete_worker workers_delete_down "1001" world_present_then_absent).2 =
    workers world_present_then_absent.
Proof.
  pose proof (proj2 (delete_worker_partial_failure (env_reply "PPE_OK")
                       workers_delete_down "1001" world_present_then_absent)
                "timeout" eq_refl eq_refl) as (Hresp & Hworkers & _).
  split; [exact Hresp|exact Hworkers].
Defined.

Lemma filter_all {A} (P : A -> Prop) `{!forall x, Decision (P x)} (l : list A) :
  (forall x, x ∈ l -> P x) -> filter P l = l.
Proof.
  induction l as [|x l IH]; intros Hall; [done|].
  rewrite filter_cons, decide_True by (apply Hall; left).
  rewrite IH; [done|]. intros y Hy. apply Hall. by right.
Qed.

(** X7: with both deletions succeeding, [delete_worker] for an id that has
    no row in [workers] and no row in [attendance] answers ok and changes
    nothing; hence deleting the same worker a second time answers ok and
    leaves the world of the first deletion. *)
Theorem delete_worker_twice (faults : DeleteFaults) (id : string) (w : World) :
  attendance_delete_fault faults = None ->
  workers_delete_fault faults = None ->
  ((id ∉ w_worker_id <$> workers w) ->
   (forall r, r ∈ attendance w -> worker_id r <> Some id) ->
   delete_worker faults id w = (mkResponse [("status", JStr "ok")] 200, w)) /\
  delete_worker faults id (delete_worker faults id w).2 =
    (mkResponse [("status", JStr "ok")] 200, (delete_worker faults id w).2).
Proof.
  intros Hda Hdw.
  assert (Hnoop : forall w0,
            (id ∉ w_worker_id <$> workers w0) ->
            (forall r, r ∈ attendance w0 -> worker_id r <> Some id) ->
            delete_worker faults id w0 = (mkResponse [("status", JStr "ok")] 200, w0)).
  { intros w0 Hw Ha. rewrite delete_worker_run, Hda, Hdw. cbv zeta.
    rewrite (filter_all _ (attendance w0)) by done.
    rewrite (filter_all _ (workers w0)).
    - by destruct w0.
    - intros x Hx Hid. apply Hw, list_elem_of_fmap. eauto. }
  split; [apply Hnoop|]. apply Hnoop.
  - rewrite delete_worker_run, Hda, Hdw. cbv zeta. cbn [snd workers].
    intros Hin. apply list_elem_of_fmap in Hin as (x & -> & Hx).
    by apply list_elem_of_filter in Hx as [Hx _].
  - rewrite delete_worker_run, Hda, Hdw. cbv zeta. cbn [snd attendance].
    intros r Hr. by apply list_elem_of_filter in Hr as [Hr _].
Qed.

Lemma delete_worker_twice_witness :
  delete_worker deletes_succeed "1001"
    (delete_worker deletes_succeed "1001" world_present_then_absent).2 =
  (mkResponse [("status", JStr "ok")] 200,
   (delete_worker deletes_succeed "1001" world_present_then_absent).2).
Proof.
  exact (proj2 (delete_worker_twice deletes_succeed "1001" world_present_then_absent
                  eq_refl eq_refl)).
Defined.

(** ** Listing the log *)

Lemma insert_by_created_at_desc_perm r l : insert_by_created_at_desc r l ≡ₚ r :: l.
Proof.
  induction l as [|x l IH]; [reflexivity|]. simpl.
  destruct (created_at x <=? created_at r)%nat; [reflexivity|].
  rewrite IH. apply Permutation_swap.
Qed.

Lemma insert_by_created_at_desc_sorted r l :
  StronglySorted (fun a b => (created_at b <= created_at a)%nat) l ->
  StronglySorted (fun a b => (created_at b <= created_at a)%nat)
    (insert_by_created_at_desc r l).
Proof.
  induction 1 as [|x l Hl IH Hx]; simpl.
  - repeat constructor.
  - destruct (created_at x <=? created_at r)%nat eqn:E.
    + apply Nat.leb_le in E. constructor; [by constructor|].
      constructor; [exact E|].
      eapply Forall_impl; [exact Hx|]. intros; simpl in *. lia.
    + apply Nat.leb_gt in E. constructor; [exact IH|].
      rewrite insert_by_created_at_desc_perm. constructor; [lia|exact Hx].
Qed.

Lemma order_by_created_at_desc_sorted l :
  StronglySorted (fun a b => (created_at b <= created_at a)%nat)
    (order_by_created_at_desc l).
Proof.
  induction l as [|x l IH]; simpl; [constructor|].
  by apply insert_by_created_at_desc_sorted.
Qed.

(** X8: [get_logs] (its query succeeding) lists each attendance row it
    selects exactly once, newest first by [created_at]; it selects the rows
    of the given date, and all rows when the date parameter is missing or
    empty; the listed columns are those of the row, without the image
    reference. *)
Theorem get_logs_newest_first (env : Env) (args : gmap string string) (w : World) :
  attendance_select_fault env = None ->
  exists selected,
    (get_logs env args w).1 = Listed (log_row <$> selected) /\
    StronglySorted (fun a b => (created_at b <= created_at a)%nat) selected /\
    (args !! "date" = None \/ args !! "date" = Some "" ->
     selected ≡ₚ attendance w) /\
    (forall d, args !! "date" = Some d -> d <> "" ->
     selected ≡ₚ filter (fun r => date r = Some d) (attendance w)).
Proof.
  intros Hsel. rewrite (get_logs_run env args w Hsel). cbn [fst].
  eexists. split; [reflexivity|]. split; [apply order_by_created_at_desc_sorted|].
  split.
  - rewrite order_by_created_at_desc_perm. by intros [-> | ->].
  - intros d -> Hd. rewrite order_by_created_at_desc_perm.
    cbn [falsy]. rewrite bool_decide_eq_false_2 by done. reflexivity.
Qed.

Lemma get_logs_newest_first_witness :
  exists selected,
    (get_logs (env_reply "PPE_OK") ∅ world_present_then_absent).1
      = Listed (log_row <$> selected) /\
    StronglySorted (fun a b => (created_at b <= created_at a)%nat) selected.
Proof.
  destruct (get_logs_newest_first (env_reply "PPE_OK") ∅ world_present_then_absent
              eq_refl) as (selected & Hl & Hs & _).
  exists selected. split; [exact Hl|exact Hs].
Defined.

(** X9: the query handlers [get_stats], [get_logs] and [get_workers] never
    change the tables or the bucket, whether their calls succeed or raise;
    [get_workers] (its query succeeding) lists exactly the rows of
    [workers], in the order of the table. *)
Theorem queries_never_write (env : Env) (args : gmap string string) (w : World) :
  (get_stats env args w).2 = w /\
  (get_logs env args w).2 = w /\
  (get_workers env w).2 = w /\
  match workers_select_fault env with
  | None => (get_workers env w).1 = Listed (workers w)
  | Some msg => (get_workers env w).1 = NotListed (mkResponse [("error", JStr msg)] 500)
  end.
Proof.
  repeat split.
  - unfold get_stats, try_except, bind, attendance_select_date, workers_count, external.
    destruct (attendance_select_fault env), (workers_select_fault env); reflexivity.
  - unfold get_logs, try_except, bind, attendance_select_logs, external.
    destruct (attendance_select_fault env); reflexivity.
  - unfold get_workers, try_except, bind, workers_select_all, external.
    destruct (workers_select_fault env); reflexivity.
  - unfold get_workers, try_except, bind, workers_select_all, external.
    destruct (workers_select_fault env); reflexivity.
Qed.

(** ** The frame and the stores around a verification *)

Ltac no_new_row :=
  exists []; rewrite app_nil_r;
  split; [reflexivity | split; [cbn; lia | constructor]].

(** [verify] in every case: what is left in the world. *)
Lemma verify_world (env : Env) (data : Request) (w : World) :
  workers (verify env data w).2 = workers w /\
  (exists rows, attendance (verify env data w).2 = attendance w ++ rows
                /\ (length rows <= 1)%nat
                /\ Forall (fun r => date r = Some (today env)) rows) /\
  (clock w <= clock (verify env data w).2)%nat.
Proof.
  destruct (decode_image (get data "image")) as [image_bytes|e] eqn:Hd.
  2:{ rewrite (verify_decode_fails env data w e Hd). cbn.
      split; [done|]. split; [|lia]. no_new_row. }
  unfold decode_image in Hd.
  destruct (split_comma_1 (get data "image")) as [raw|] eqn:Hs; [|discriminate].
  destruct (upload_fault env) as [m|] eqn:Hup.
  { unfold verify, try_except, bind, lift, storage_upload.
    rewrite Hs, Hd, Hup. cbn. split; [done|]. split; [|lia].
    no_new_row. }
  destruct (remove_fault env) as [m|] eqn:Hrm.
  { unfold verify, try_except, bind, lift, storage_upload, storage_remove.
    rewrite Hs, Hd, Hup, Hrm. cbn. split; [done|]. split; [|lia].
    no_new_row. }
  rewrite (verify_run env data w raw image_bytes Hs Hd Hup Hrm). cbv zeta.
  destruct (Py.contains "NO_WORKER" _).
  { cbn. split; [done|]. split; [|lia]. no_new_row. }
  destruct (attendance_insert_fault env).
  { cbn. split; [done|]. split; [|lia]. no_new_row. }
  destruct (workers_select_fault env); cbn; (split; [done|]); (split; [|lia]);
    eexists; (split; [reflexivity|]); (split; [cbn; lia|]);
    repeat constructor; unfold verify_record; by destruct (Py.contains "PPE_OK" _).
Qed.

Lemma manual_upload_world (env : Env) (data : Request) (w : World) :
  workers (manual_upload env data w).2 = workers w /\
  (exists rows, attendance (manual_upload env data w).2 = attendance w ++ rows
                /\ (length rows <= 1)%nat
                /\ Forall (fun r => date r = Some (today env)) rows) /\
  (clock w <= clock (manual_upload env data w).2)%nat.
Proof.
  destruct (decode_image (get data "image")) as [image_bytes|e] eqn:Hd.
  2:{ rewrite (manual_upload_decode_fails env data w e Hd). cbn.
      split; [done|]. split; [|lia]. no_new_row. }
  unfold decode_image in Hd.
  destruct (split_comma_1 (get data "image")) as [raw|] eqn:Hs; [|discriminate].
  destruct (upload_fault env) as [m|] eqn:Hup.
  { unfold manual_upload, try_except, bind, lift, storage_upload.
    rewrite Hs, Hd, Hup. cbn. split; [done|]. split; [|lia].
    no_new_row. }
  rewrite (manual_upload_run env data w raw image_bytes Hs Hd Hup). cbv zeta.
  destruct (attendance_insert_fault env).
  { cbn. split; [done|]. split; [|lia]. no_new_row. }
  destruct (remove_fault env); cbn; (split; [done|]); (split; [|lia]);
    eexists; (split; [reflexivity|]); (split; [cbn; lia|]); by repeat constructor.
Qed.

(** X10: the handlers that write attendance ([verify], [manual_upload],
    [manual_mark]) never change the [workers] table and never change or
    drop a stored attendance row, whatever fails: the table after the
    request is the table before it followed by at most one new row. *)
Theorem attendance_is_append_only (env : Env) (data : Request) (w : World) :
  (workers (verify env data w).2 = workers w /\
   exists rows, attendance (verify env data w).2 = attendance w ++ rows
                /\ (length rows <= 1)%nat) /\
  (workers (manual_upload env data w).2 = workers w /\
   exists rows, attendance (manual_upload env data w).2 = attendance w ++ rows
                /\ (length rows <= 1)%nat) /\
  (workers (manual_mark env data w).2 = workers w /\
   exists rows, attendance (manual_mark env data w).2 = attendance w ++ rows
                /\ (length rows <= 1)%nat).
Proof.
  split; [|split].
  - destruct (verify_world env data w) as (Hw & (rows & Ha & Hlen & _) & _).
    split; [done|]. by exists rows.
  - destruct (manual_upload_world env data w) as (Hw & (rows & Ha & Hlen & _) & _).
    split; [done|]. by exists rows.
  - rewrite manual_mark_run. destruct (attendance_insert_fault env); cbn.
    + split; [done|]. exists []. rewrite app_nil_r. split; [done|cbn; lia].
    + split; [done|]. eexists. split; [reflexivity|]. cbn. lia.
Qed.

Lemma bucket_after_frame_eq (name : string) (file : Base64.bytes) (w : World) :
  bucket_after_frame name file w = filter (fun o => o.1 <> name) (bucket w).
Proof.
  unfold bucket_after_frame. rewrite filter_app, filter_cons, filter_nil.
  rewrite decide_False by (cbn; intros H; apply H; left).
  rewrite app_nil_r. apply list_filter_iff. intros o.
  rewrite list_elem_of_singleton. done.
Qed.

(** X11: in [verify], once the frame is decoded and the upload and the
    removal succeed, no object with the frame's key is left in the bucket,
    whatever the classifier answers and whether or not the insert and the
    name lookup succeed; the other objects stay.  The same holds in
    [manual_upload] when its insert succeeds too. *)
Theorem frame_is_removed (env : Env) (data : Request) (w : World) raw image_bytes :
  split_comma_1 (get data "image") = Ok raw ->
  Base64.b64decode raw = Ok image_bytes ->
  upload_fault env = None ->
  remove_fault env = None ->
  bucket (verify env data w).2 =
    filter (fun o => o.1 <> "auto_" +:+ str (get data "worker_id") +:+ "_"
                            +:+ uuid4 env +:+ ".jpg") (bucket w) /\
  (attendance_insert_fault env = None ->
   bucket (manual_upload env data w).2 =
     filter (fun o => o.1 <> "manual_" +:+ str (get data "worker_id") +:+ "_"
                             +:+ uuid4 env +:+ ".jpg") (bucket w)).
Proof.
  intros Hs Hd Hup Hrm. split.
  - rewrite (verify_run env data w raw image_bytes Hs Hd Hup Hrm). cbv zeta.
    rewrite bucket_after_frame_eq. unfold auto_file_name.
    destruct (Py.contains "NO_WORKER" _); [done|].
    by destruct (attendance_insert_fault env), (workers_select_fault env).
  - intros Hins.
    rewrite (manual_upload_run env data w raw image_bytes Hs Hd Hup). cbv zeta.
    rewrite Hins, Hrm. cbn [snd bucket]. by rewrite bucket_after_frame_eq.
Qed.

Lemma frame_is_removed_witness :
  bucket (verify env_insert_down (frame_request "1001" "data:image/jpeg;base64,QUJD")
            world_one_worker).2 = [].
Proof.
  exact (proj1 (frame_is_removed env_insert_down
                  (frame_request "1001" "data:image/jpeg;base64,QUJD") world_one_worker
                  "QUJD" [Byte.x41; Byte.x42; Byte.x43] eq_refl eq_refl eq_refl eq_refl)).
Defined.

(** X12: storage failures around a decoded frame.  When the upload raises,
    [verify] and [manual_upload] answer with the error and code 500 and
    change nothing.  When the upload succeeds and the removal raises,
    [verify] answers with the error, writes no attendance row and leaves the
    frame in the bucket; [manual_upload] (its insert succeeding) has by then
    written its PRESENT row, yet answers with the error and leaves the frame
    in the bucket. *)
Theorem storage_failures (env : Env) (data : Request) (w : World) raw image_bytes :
  split_comma_1 (get data "image") = Ok raw ->
  Base64.b64decode raw = Ok image_bytes ->
  (forall msg, upload_fault env = Some msg ->
     verify env data w =
       (mkResponse [("status", JStr "ERROR"); ("message", JStr msg)] 500, w) /\
     manual_upload env data w =
       (mkResponse [("status", JStr "ERROR"); ("message", JStr msg)] 500, w)) /\
  (forall msg, upload_fault env = None -> remove_fault env = Some msg ->
     verify env data w =
       (mkResponse [("status", JStr "ERROR"); ("message", JStr msg)] 500,
        mkWorld (workers w) (attendance w)
          (bucket w ++ [("auto_" +:+ str (get data "worker_id") +:+ "_" +:+ uuid4 env
                         +:+ ".jpg", image_bytes)]) (clock w)) /\
     (attendance_insert_fault env = None ->
      manual_upload env data w =
        (mkResponse [("status", JStr "ERROR"); ("message", JStr msg)] 500,
         mkWorld (workers w)
           (attendance w ++ [mkAttendance (get data "worker_id") (Some "PRESENT")
                               "MANUAL_VERIFIED" "Manual Override Confirmed" None
                               (Some (today env)) (clock w)])
           (bucket w ++ [("manual_" +:+ str (get data "worker_id") +:+ "_" +:+ uuid4 env
                          +:+ ".jpg", image_bytes)]) (S (clock w))))).
Proof.
  intros Hs Hd. split.
  - intros msg Hup. split.
    + unfold verify, try_except, bind, lift, storage_upload. by rewrite Hs, Hd, Hup.
    + unfold manual_upload, try_except, bind, lift, storage_upload.
      by rewrite Hs, Hd, Hup.
  - intros msg Hup Hrm. split.
    + unfold verify, try_except, bind, lift, storage_upload, storage_remove.
      rewrite Hs, Hd, Hup, Hrm, external_ok. reflexivity.
    + intros Hins.
      rewrite (manual_upload_run env data w raw image_bytes Hs Hd Hup). cbv zeta.
      by rewrite Hins, Hrm.
Qed.

Lemma storage_failures_witness :
  manual_upload env_remove_down (frame_request "1001" "data:image/jpeg;base64,QUJD")
    world_one_worker =
  (mkResponse [("status", JStr "ERROR"); ("message", JStr "storage unavailable")] 500,
   mkWorld [mkWorker "1001" "Ann"]
     [mkAttendance (Some "1001") (Some "PRESENT") "MANUAL_VERIFIED"
        "Manual Override Confirmed" None (Some "2026-01-01") 0]
     [("manual_1001_u1.jpg", [Byte.x41; Byte.x42; Byte.x43])] 1).
Proof.
  exact (proj2 (proj2 (storage_failures env_remove_down
                  (frame_request "1001" "data:image/jpeg;base64,QUJD") world_one_worker
                  "QUJD" [Byte.x41; Byte.x42; Byte.x43] eq_refl eq_refl)
                "storage unavailable" eq_refl eq_refl) eq_refl).
Defined.

(** ** The reply handed to the classification *)

Lemma upper_char_idem c : Py.upper_char (Py.upper_char c) = Py.upper_char c.
Proof. destruct c as [[] [] [] [] [] [] [] []]; reflexivity. Qed.

Lemma isspace_upper_char c : Py.isspace (Py.upper_char c) = Py.isspace c.
Proof. destruct c as [[] [] [] [] [] [] [] []]; reflexivity. Qed.

Lemma upper_idem s : Py.upper (Py.upper s) = Py.upper s.
Proof.
  induction s as [|c r IH]; [done|]. cbn [Py.upper]. by rewrite upper_char_idem, IH.
Qed.

Lemma lstrip_upper s : Py.lstrip (Py.upper s) = Py.upper (Py.lstrip s).
Proof.
  induction s as [|c r IH]; [done|]. cbn [Py.upper Py.lstrip].
  rewrite isspace_upper_char. by destruct (Py.isspace c).
Qed.

Lemma rstrip_upper s : Py.rstrip (Py.upper s) = Py.upper (Py.rstrip s).
Proof.
  induction s as [|c r IH]; [done|]. cbn [Py.upper Py.rstrip].
  rewrite IH, isspace_upper_char.
  destruct (Py.rstrip r); cbn [Py.upper]; [by destruct (Py.isspace c)|done].
Qed.

Lemma lstrip_starts_clean s : starts_clean (Py.lstrip s) = true.
Proof.
  induction s as [|c r IH]; [done|]. cbn [Py.lstrip].
  destruct (Py.isspace c) eqn:E; [done|]. cbn. by rewrite E.
Qed.

Lemma rstrip_starts_clean s : starts_clean s = true -> starts_clean (Py.rstrip s) = true.
Proof.
  destruct s as [|c r]; [done|]. cbn [starts_clean Py.rstrip]. intros Hc.
  apply negb_true_iff in Hc.
  destruct (Py.rstrip r); rewrite ?Hc; cbn; by rewrite Hc.
Qed.

Lemma lstrip_clean s : starts_clean s = true -> Py.lstrip s = s.
Proof.
  destruct s as [|c r]; [done|]. cbn. intros Hc. apply negb_true_iff in Hc.
  by rewrite Hc.
Qed.

Lemma rstrip_cons c r :
  Py.rstrip (String c r) =
    match Py.rstrip r with
    | EmptyString => if Py.isspace c then EmptyString else String c EmptyString
    | r' => String c r'
    end.
Proof. reflexivity. Qed.

Lemma rstrip_idem s : Py.rstrip (Py.rstrip s) = Py.rstrip s.
Proof.
  induction s as [|c r IH]; [done|]. rewrite rstrip_cons.
  destruct (Py.rstrip r) as [|c' r'] eqn:E.
  - destruct (Py.isspace c) eqn:Ec; [done|]. by rewrite rstrip_cons, Ec.
  - by rewrite rstrip_cons, IH.
Qed.

Lemma strip_idem s : Py.strip (Py.strip s) = Py.strip s.
Proof.
  unfold Py.strip.
  rewrite (lstrip_clean (Py.rstrip (Py.lstrip s)))
    by apply rstrip_starts_clean, lstrip_starts_clean.
  apply rstrip_idem.
Qed.

Lemma strip_upper s : Py.strip (Py.upper s) = Py.upper (Py.strip s).
Proof. unfold Py.strip. by rewrite lstrip_upper, rstrip_upper. Qed.

(** X13: the reply [verify_ppe_with_gemini] returns is normalised, whatever
    the classifier does (answer, empty answer or exception): upper-casing it
    again changes nothing and trimming it again changes nothing. *)
Theorem gemini_reply_is_normalised (env : Env) (image_base64 : string) :
  Py.upper (verify_ppe_with_gemini env image_base64)
    = verify_ppe_with_gemini env image_base64 /\
  Py.strip (verify_ppe_with_gemini env image_base64)
    = verify_ppe_with_gemini env image_base64.
Proof.
  unfold verify_ppe_with_gemini. split.
  - destruct (generate_content env image_base64); [reflexivity|apply upper_idem].
  - destruct (generate_content env image_base64); [reflexivity|].
    by rewrite strip_upper, strip_idem.
Qed.

(** ** Bounds and independence of the daily counts *)

Lemma length_filter_disjoint {A} (P Q : A -> Prop)
    `{!forall x, Decision (P x)} `{!forall x, Decision (Q x)} (l : list A) :
  (forall x, P x -> Q x -> False) ->
  (length (filter P l) + length (filter Q l) <= length l)%nat.
Proof.
  intros Hdis. induction l as [|x l IH]; [done|].
  rewrite !filter_cons. destruct (decide (P x)) as [HP|HP], (decide (Q x)) as [HQ|HQ];
    cbn [length]; try lia.
  destruct (Hdis x HP HQ).
Qed.

Lemma length_remove_dups {A} `{!EqDecision A} (l : list A) :
  (length (remove_dups l) <= length l)%nat.
Proof.
  induction l as [|x l IH]; [done|]. cbn [remove_dups length].
  destruct (decide_rel elem_of x l); cbn [length]; lia.
Qed.

(** X14: in the answer of [get_stats] (its queries succeeding) the two
    counts are not negative and their sum is at most the number of distinct
    worker ids among the attendance rows of the date, which is at most the
    number of those rows: no worker is counted twice or under both
    statuses. *)
Theorem get_stats_counts_bounded (env : Env) (args : gmap string string) (w : World) :
  attendance_select_fault env = None ->
  workers_select_fault env = None ->
  let d := default (today env) (args !! "date") in
  let rows := filter (fun r => date r = Some d) (attendance w) in
  exists present absent,
    (get_stats env args w).1 =
      mkResponse [("present", JNum present); ("absent", JNum absent);
                  ("total_workers", JNum (Z.of_nat (length (workers w))));
                  ("date", JStr d)] 200 /\
    0 <= present /\ 0 <= absent /\
    present + absent <= Z.of_nat (length (remove_dups (worker_id <$> rows))) /\
    (length (remove_dups (worker_id <$> rows)) <= length rows)%nat.
Proof.
  intros Hsel Hwk d rows.
  rewrite (get_stats_run env args w Hsel Hwk). cbv zeta. fold d. cbn [fst].
  rewrite !count_status_latest. unfold workers_with_latest.
  do 2 eexists. split; [reflexivity|].
  split; [lia|]. split; [lia|]. split.
  - set (ks := remove_dups (worker_id <$> logs_of d w)).
    assert (Hlen : length ks = length (remove_dups (worker_id <$> rows))).
    { apply Permutation_length, NoDup_Permutation; try apply NoDup_remove_dups.
      intros k. unfold ks, logs_of. rewrite !elem_of_remove_dups.
      fold rows. by rewrite order_by_created_at_perm. }
    rewrite <- Hlen.
    pose proof (length_filter_disjoint
      (fun wid => attendance_status <$> latest_row (logs_of d w) wid = Some (Some "PRESENT"))
      (fun wid => attendance_status <$> latest_row (logs_of d w) wid = Some (Some "ABSENT"))
      ks) as Hdis.
    assert (Hd : forall x : option string,
             attendance_status <$> latest_row (logs_of d w) x = Some (Some "PRESENT") ->
             attendance_status <$> latest_row (logs_of d w) x = Some (Some "ABSENT") ->
             False) by (intros x H1 H2; rewrite H1 in H2; discriminate).
    specialize (Hdis Hd). lia.
  - etrans; [apply length_remove_dups|]. by rewrite length_fmap.
Qed.

Lemma get_stats_counts_bounded_witness :
  exists present absent,
    (get_stats (env_reply "PPE_OK") ∅ world_present_then_absent).1 =
      mkResponse [("present", JNum present); ("absent", JNum absent);
                  ("total_workers", JNum 2); ("date", JStr "2026-01-01")] 200 /\
    present + absent <= 2.
Proof.
  destruct (get_stats_counts_bounded (env_reply "PPE_OK") ∅ world_present_then_absent
              eq_refl eq_refl) as (present & absent & Hr & _ & _ & Hsum & _).
  exists present, absent. split; [exact Hr|exact Hsum].
Defined.

Lemma get_stats_same (env : Env) (args : gmap string string) (w1 w2 : World) :
  workers w1 = workers w2 ->
  filter (fun r => date r = Some (default (today env) (args !! "date"))) (attendance w1)
  = filter (fun r => date r = Some (default (today env) (args !! "date"))) (attendance w2) ->
  (get_stats env args w1).1 = (get_stats env args w2).1.
Proof.
  intros Hw Ha.
  unfold get_stats, try_except, bind, attendance_select_date, workers_count, external.
  destruct (attendance_select_fault env); [done|].
  destruct (workers_select_fault env); [done|].
  cbn. by rewrite Ha, Hw.
Qed.

(** X15: what [get_stats] answers for a date does not depend on the marks
    for other dates: after [manual_mark] with a date different from the one
    asked for (the default of both is the server's date), and after
    [verify] or [manual_upload] when the date asked for is not the server's
    date, the answer is the same as before, whatever fails. *)
Theorem get_stats_ignores_other_dates
    (env : Env) (args : gmap string string) (data : Request) (w : World) :
  let d := default (today env) (args !! "date") in
  (get_default data "date" (today env) <> Some d ->
   (get_stats env args (manual_mark env data w).2).1 = (get_stats env args w).1) /\
  (today env <> d ->
   (get_stats env args (verify env data w).2).1 = (get_stats env args w).1 /\
   (get_stats env args (manual_upload env data w).2).1 = (get_stats env args w).1).
Proof.
  intros d. split.
  - intros Hd. apply get_stats_same; rewrite manual_mark_run;
      destruct (attendance_insert_fault env); try done.
    cbn [snd attendance]. fold d.
    rewrite filter_app, filter_cons, decide_False, filter_nil, app_nil_r; done.
  - intros Hd.
    assert (Hnew : forall (w' : World) rows,
              workers w' = workers w ->
              attendance w' = attendance w ++ rows ->
              Forall (fun r => date r = Some (today env)) rows ->
              (get_stats env args w').1 = (get_stats env args w).1).
    { intros w' rows Hw Ha Hrows. apply get_stats_same; [done|].
      fold d. rewrite Ha, filter_app.
      rewrite (filter_none _ rows); [by rewrite app_nil_r|].
      eapply Forall_impl; [exact Hrows|]. intros r Hr Hr'. rewrite Hr in Hr'.
      by injection Hr'. }
    split.
    + destruct (verify_world env data w) as (Hw & (rows & Ha & _ & Hrows) & _).
      by apply (Hnew _ rows).
    + destruct (manual_upload_world env data w) as (Hw & (rows & Ha & _ & Hrows) & _).
      by apply (Hnew _ rows).
Qed.

Lemma get_stats_ignores_other_dates_witness :
  (get_stats (env_reply "PPE_OK") {[ "date" := "2026-01-01" ]}
     (manual_mark (env_reply "PPE_OK")
        {[ "worker_id" := Some "1002"; "date" := Some "2026-03-03" ]}
        world_present_then_absent).2).1 =
  (get_stats (env_reply "PPE_OK") {[ "date" := "2026-01-01" ]}
     world_present_then_absent).1.
Proof.
  refine (proj1 (get_stats_ignores_other_dates (env_reply "PPE_OK")
                   {[ "date" := "2026-01-01" ]}
                   {[ "worker_id" := Some "1002"; "date" := Some "2026-03-03" ]}
                   world_present_then_absent) _).
  discriminate.
Defined.

(** ** Registering, removing and registering again *)

(** X16: an id is used again after its worker is removed.  When a
    registration answers ok with an id and the worker is then removed
    under that id (all calls succeeding), the [workers] table is back to
    what it was, and the next registration returns that same id. *)
Theorem removed_id_is_reused
    (env : Env) (faults : DeleteFaults) (data data' : Request) (w : World) name name' :
  get data "name" = Some name -> name <> "" ->
  get data' "name" = Some name' -> name' <> "" ->
  workers_select_fault env = None ->
  workers_insert_fault env = None ->
  attendance_delete_fault faults = None ->
  workers_delete_fault faults = None ->
  forall id,
    (add_worker env data w).1 =
      mkResponse [("status", JStr "ok"); ("worker_id", JStr id)] 200 ->
    let w' := (delete_worker faults id (add_worker env data w).2).2 in
    workers w' = workers w /\
    (add_worker env data' w').1 =
      mkResponse [("status", JStr "ok"); ("worker_id", JStr id)] 200.
Proof.
  intros Hname Hne Hname' Hne' Hsel Hins Hda Hdw id.
  rewrite (add_worker_run env data w name Hname Hne Hsel Hins).
  destruct (Py.str_int (next_worker_id w)) as [id0|e] eqn:Hid;
    cbn [fst snd]; [|discriminate].
  intros [= <-].
  rewrite delete_worker_run, Hda, Hdw. cbv zeta. cbn [snd workers attendance].
  set (w' := mkWorld _ _ _ _).
  assert (Hw : workers w' = workers w).
  { unfold w'. cbn [workers]. rewrite filter_app, filter_cons, decide_False, filter_nil
      by (cbn; intros H; by apply H).
    rewrite app_nil_r. apply filter_all.
    intros x Hx Hx'. apply (next_worker_id_fresh w id0 Hid), list_elem_of_fmap. eauto. }
  split; [exact Hw|].
  rewrite (add_worker_run env data' w' name' Hname' Hne' Hsel Hins).
  by rewrite (next_worker_id_same w' w Hw), Hid.
Qed.

Lemma removed_id_is_reused_witness :
  (add_worker (env_reply "PPE_OK") (name_request "Eve")
     (delete_worker deletes_succeed "1006"
        (add_worker (env_reply "PPE_OK") (name_request "Dee") world_three_workers).2).2).1 =
    mkResponse [("status", JStr "ok"); ("worker_id", JStr "1006")] 200.
Proof.
  exact (proj2 (removed_id_is_reused (env_reply "PPE_OK") deletes_succeed
                  (name_request "Dee") (name_request "Eve") world_three_workers
                  "Dee" "Eve"
                  eq_refl ltac:(discriminate) eq_refl ltac:(discriminate)
                  eq_refl eq_refl eq_refl eq_refl "1006" eq_refl)).
Defined.

(** ** A new row in the listing *)

Lemma insert_by_created_at_desc_head x r l :
  (created_at x < created_at r)%nat ->
  insert_by_created_at_desc x (r :: l) = r :: insert_by_created_at_desc x l.
Proof.
  intros Hlt. cbn [insert_by_created_at_desc].
  by rewrite (proj2 (Nat.leb_gt _ _)).
Qed.

Lemma order_by_created_at_desc_snoc r l :
  Forall (fun x => (created_at x < created_at r)%nat) l ->
  order_by_created_at_desc (l ++ [r]) = r :: order_by_created_at_desc l.
Proof.
  induction 1 as [|x l Hx _ IH]; [done|].
  cbn [app order_by_created_at_desc foldr].
  change (foldr insert_by_created_at_desc [] (l ++ [r]))
    with (order_by_created_at_desc (l ++ [r])).
  rewrite IH. by apply insert_by_created_at_desc_head.
Qed.

(** X17: a mark shows up on top of the log.  In a world whose stored
    stamps are older than the storage clock, after [manual_mark] has
    inserted its row (insert and query succeeding), [get_logs] for the
    row's date, and [get_logs] without date, list the columns of that row
    first, followed by exactly what they listed before. *)
Theorem manual_mark_is_listed_first (env : Env) (data : Request) (w : World) :
  clock_ahead w ->
  attendance_insert_fault env = None ->
  attendance_select_fault env = None ->
  let status := get_default data "status" "PRESENT" in
  let new_row :=
    mkLogRow (get data "worker_id") status "ADMIN_OVERRIDE"
      ("Marked " +:+ str status +:+ " by Admin") (clock w)
      (get_default data "date" (today env)) in
  let w' := (manual_mark env data w).2 in
  (forall before, (get_logs env ∅ w).1 = Listed before ->
     (get_logs env ∅ w').1 = Listed (new_row :: before)) /\
  (forall d before,
     get_default data "date" (today env) = Some d -> d <> "" ->
     (get_logs env {[ "date" := d ]} w).1 = Listed before ->
     (get_logs env {[ "date" := d ]} w').1 = Listed (new_row :: before)).
Proof.
  intros Hahead Hins Hsel status new_row w'. subst w'.
  rewrite manual_mark_run, Hins. cbn [snd].
  set (r := manual_mark_record env data (clock w)).
  assert (Hrow : log_row r = new_row) by reflexivity.
  unfold clock_ahead in Hahead. split.
  - intros before. rewrite !(get_logs_run env ∅ _ Hsel). cbn [fst attendance].
    rewrite lookup_empty. cbn [falsy]. intros [= <-].
    rewrite order_by_created_at_desc_snoc by done.
    by rewrite fmap_cons, Hrow.
  - intros d before Hd Hne. rewrite !(get_logs_run env _ _ Hsel). cbn [fst attendance].
    rewrite lookup_singleton_eq. cbn [falsy]. rewrite bool_decide_eq_false_2 by done.
    intros [= <-].
    rewrite filter_app, filter_cons, decide_True, filter_nil by (by rewrite <- Hd).
    rewrite order_by_created_at_desc_snoc.
    + by rewrite fmap_cons, Hrow.
    + apply Forall_forall. intros x Hx. apply list_elem_of_filter in Hx as [_ Hx].
      rewrite Forall_forall in Hahead. by apply Hahead.
Qed.

Lemma manual_mark_is_listed_first_witness :
  (get_logs (env_reply "PPE_OK") ∅
     (manual_mark (env_reply "PPE_OK") {[ "worker_id" := Some "1002" ]}
        world_present_then_absent).2).1 =
  Listed (mkLogRow (Some "1002") (Some "PRESENT") "ADMIN_OVERRIDE"
            "Marked PRESENT by Admin" 3 (Some "2026-01-01")
          :: [mkLogRow (Some "1001") (Some "ABSENT") "FAILED" "[VEST]" 2 (Some "2026-01-01");
              mkLogRow (Some "1002") (Some "LATE") "ADMIN_OVERRIDE" "Marked LATE by Admin"
                1 (Some "2026-01-01");
              mkLogRow (Some "1001") (Some "PRESENT") "PASSED" "" 0 (Some "2026-01-01")]).
Proof.
  refine (proj1 (manual_mark_is_listed_first (env_reply "PPE_OK")
                   {[ "worker_id" := Some "1002" ]} world_present_then_absent
                   _ eq_refl eq_refl) _ eq_refl).
  repeat constructor.
Defined.

(** ** An error answer after the row is written *)

(** X18: [verify] looks the worker's name up after the insert.  When the
    frame is decoded, the reply is conclusive, upload, removal and insert
    succeed and that lookup raises, the handler answers with the error and
    code 500 although the attendance row of the reply has been written. *)
Theorem verify_error_after_write (env : Env) (data : Request) (w : World)
    raw image_bytes msg :
  split_comma_1 (get data "image") = Ok raw ->
  Base64.b64decode raw = Ok image_bytes ->
  Py.contains "NO_WORKER" (verify_ppe_with_gemini env raw) = false ->
  upload_fault env = None ->
  remove_fault env = None ->
  attendance_insert_fault env = None ->
  workers_select_fault env = Some msg ->
  (verify env data w).1 =
    mkResponse [("status", JStr "ERROR"); ("message", JStr msg)] 500 /\
  exists status ppe missing,
    attendance (verify env data w).2 =
      attendance w ++ [mkAttendance (get data "worker_id") (Some status) ppe missing
                         None (Some (today env)) (clock w)] /\
    (status = "PRESENT" \/ status = "ABSENT").
Proof.
  intros Hs Hd Hconcl Hup Hrm Hins Hwk.
  rewrite (verify_run env data w raw image_bytes Hs Hd Hup Hrm). cbv zeta.
  rewrite Hconcl, Hins, Hwk. cbn [fst snd attendance]. split; [reflexivity|].
  unfold verify_record. destruct (Py.contains "PPE_OK" _).
  - exists "PRESENT", "PASSED", "". split; [reflexivity|by left].
  - eexists "ABSENT", "FAILED", _. split; [reflexivity|by right].
Qed.

Lemma verify_error_after_write_witness :
  (verify env_lookup_down (frame_request "1001" "data:image/jpeg;base64,QUJD")
     world_one_worker).1 =
  mkResponse [("status", JStr "ERROR"); ("message", JStr "read timeout")] 500.
Proof.
  exact (proj1 (verify_error_after_write env_lookup_down
                  (frame_request "1001" "data:image/jpeg;base64,QUJD") world_one_worker
                  "QUJD" [Byte.x41; Byte.x42; Byte.x43] "read timeout"
                  eq_refl eq_refl eq_refl eq_refl eq_refl eq_refl eq_refl)).
Defined.
